(** * WADEPS CSV validator: the rule engine of [wadeps_validator.py]

    A shallow embedding of [WADEPSValidator.validate_csv],
    [WADEPSValidator._validate_field] and
    [WADEPSValidator._validate_subject_id], and the properties of the
    validation report that follow from them; then of what reads the
    report: [_group_errors_by_type], the status of [generate_dashboard],
    the table of [generate_error_report], the verdict of [print_summary]
    and the counts of [process_auto_mode].

    Conventions of the embedding.
    - A Python [str] is a Rocq [string] read as ASCII text (code points
      below 128); the string methods below follow CPython on that range.
      Bytes from 128 on stand for symbols that are neither white space,
      letters nor digits and have no other case.
    - A Python [dict] read from JSON is a [gmap] or, for a rule, a record
      of optional keys; a [set] is a [gset].  [list(set)] enumerates a set
      in an order the language does not fix, so the three header lists of
      the report are kept as sets.
    - An exception is the [Raise] branch of [result].
    - [float], the comparison of numbers, their formatting and the regex
      compiler behind [re.match] are parameters of the validator. *)

From Stdlib Require Import Ascii String Btauto.
From stdpp Require Import gmap strings list pretty sorting.

Set Default Proof Using "Type".
#[local] Set Warnings "-clear-no-such-hyp".

(** ** Python string methods *)

Module PyStr.

Definition chars : string → list ascii := String.list_ascii_of_string.
Definition str : list ascii → string := String.string_of_list_ascii.

Definition code (c : ascii) : nat := nat_of_ascii c.

Definition between (lo hi : nat) (c : ascii) : bool :=
  (lo <=? code c) && (code c <=? hi).

(** [str.isspace] on one character: TAB, LF, VT, FF, CR, the four
    separators FS, GS, RS, US, and the space. *)
Definition isspace (c : ascii) : bool := between 9 13 c || between 28 32 c.

Definition is_upper (c : ascii) : bool := between 65 90 c.
Definition is_lower (c : ascii) : bool := between 97 122 c.
Definition is_alpha (c : ascii) : bool := is_upper c || is_lower c.
Definition is_digit (c : ascii) : bool := between 48 57 c.

Definition lower_char (c : ascii) : ascii :=
  if is_upper c then ascii_of_nat (code c + 32) else c.
Definition upper_char (c : ascii) : ascii :=
  if is_lower c then ascii_of_nat (code c - 32) else c.

Fixpoint lstrip_chars (l : list ascii) : list ascii :=
  match l with
  | c :: l' => if isspace c then lstrip_chars l' else l
  | [] => []
  end.
Definition rstrip_chars (l : list ascii) : list ascii :=
  rev (lstrip_chars (rev l)).
Definition strip_chars (l : list ascii) : list ascii :=
  rstrip_chars (lstrip_chars l).

(** [s.strip()] *)
Definition strip (s : string) : string := str (strip_chars (chars s)).
(** [s.lower()] and [s.upper()] *)
Definition lower (s : string) : string := str (map lower_char (chars s)).
Definition upper (s : string) : string := str (map upper_char (chars s)).
(** [len(s)] *)
Definition len (s : string) : nat := length (chars s).
(** [c in s] for a one-character [c] *)
Definition contains (c : ascii) (s : string) : bool :=
  existsb (Ascii.eqb c) (chars s).

(** [s.split()]: the maximal runs of characters that are not white
    space.  [cur] is the run being read, last character first. *)
Fixpoint split_go (cur : list ascii) (l : list ascii) : list string :=
  match l with
  | [] => match cur with [] => [] | _ => [str (rev cur)] end
  | c :: l' =>
      if isspace c
      then match cur with
           | [] => split_go [] l'
           | _ => str (rev cur) :: split_go [] l'
           end
      else split_go (c :: cur) l'
  end.
Definition split (s : string) : list string := split_go [] (chars s).

(** [sep.join(l)] *)
Fixpoint join (sep : string) (l : list string) : string :=
  match l with
  | [] => ""
  | [x] => x
  | x :: l' => x +:+ sep +:+ join sep l'
  end.

(** The text [s] between two double quotes (character 34). *)
Definition quoted (s : string) : string :=
  String (ascii_of_nat 34) (s +:+ String (ascii_of_nat 34) "").

(** [x in l] for a list of strings *)
Definition mem (x : string) (l : list string) : bool :=
  bool_decide (x ∈ l).

End PyStr.

(** ** Regular expressions as [re.match] reads them *)

Module Re.

(** The constructs the validator's own patterns use.  [Chr p] is one
    character of the class [p]; [Bol] is [^] and [Eol] is [$], both
    without [re.MULTILINE]. *)
Inductive regex : Type :=
| Eps
| Chr (p : ascii → bool)
| Cat (r1 r2 : regex)
| Alt (r1 r2 : regex)
| Star (r : regex)
| Bol
| Eol.

Definition newline : ascii := ascii_of_nat 10.

(** [$] holds at the end of the string and just before a newline that
    ends the string. *)
Definition at_eol (after : list ascii) : bool :=
  match after with
  | [] => true
  | [c] => Ascii.eqb c newline
  | _ => false
  end.

Definition at_bol (before : list ascii) : bool :=
  match before with [] => true | _ => false end.

(** [lang r before w after]: inside the subject [before ++ w ++ after],
    the pattern [r] matches exactly the part [w]. *)
Inductive lang : regex → list ascii → list ascii → list ascii → Prop :=
| L_eps before after : lang Eps before [] after
| L_chr p c before after : p c = true → lang (Chr p) before [c] after
| L_cat r1 r2 before w1 w2 after :
    lang r1 before w1 (w2 ++ after) →
    lang r2 (before ++ w1) w2 after →
    lang (Cat r1 r2) before (w1 ++ w2) after
| L_alt_l r1 r2 before w after :
    lang r1 before w after → lang (Alt r1 r2) before w after
| L_alt_r r1 r2 before w after :
    lang r2 before w after → lang (Alt r1 r2) before w after
| L_star_nil r before after : lang (Star r) before [] after
| L_star_cons r before w1 w2 after :
    lang r before w1 (w2 ++ after) →
    lang (Star r) (before ++ w1) w2 after →
    lang (Star r) before (w1 ++ w2) after
| L_bol after : lang Bol [] [] after
| L_eol before after : at_eol after = true → lang Eol before [] after.

Definition cont : Type := list ascii → list ascii → bool.

(** The loop of a starred pattern: stop here, or match the body once
    more on a non-empty part and go on.  [n] bounds the rounds. *)
Definition star_loop (body : list ascii → list ascii → cont → bool)
    (k : cont) : nat → list ascii → list ascii → bool :=
  fix loop n before s :=
    k before s ||
    match n with
    | 0 => false
    | S n' =>
        body before s
          (λ before' s', (length s' <? length s) && loop n' before' s')
    end.

(** A backtracking matcher in continuation-passing style: [go r before
    s k] tries every way for [r] to match a prefix of [s] and hands the
    rest to [k]. *)
Fixpoint go (r : regex) (before s : list ascii) (k : cont) : bool :=
  match r with
  | Eps => k before s
  | Chr p =>
      match s with
      | c :: s' => p c && k (before ++ [c]) s'
      | [] => false
      end
  | Cat r1 r2 => go r1 before s (λ before' s', go r2 before' s' k)
  | Alt r1 r2 => go r1 before s k || go r2 before s k
  | Star r1 => star_loop (go r1) k (length s) before s
  | Bol => at_bol before && k before s
  | Eol => at_eol s && k before s
  end.

(** [re.match(r, s) is not None] *)
Definition matches (r : regex) (s : string) : bool :=
  go r [] (PyStr.chars s) (λ _ _, true).

(** Pattern syntax in terms of the constructors. *)
Definition lit (c : ascii) : regex := Chr (Ascii.eqb c).
Definition range (lo hi : ascii) : regex :=
  Chr (PyStr.between (PyStr.code lo) (PyStr.code hi)).
Definition one_of (cs : list ascii) : regex :=
  Chr (λ c, existsb (Ascii.eqb c) cs).
Definition opt (r : regex) : regex := Alt r Eps.
Fixpoint seq (rs : list regex) : regex :=
  match rs with
  | [] => Eps
  | [r] => r
  | r :: rs' => Cat r (seq rs')
  end.
(** [r{n}] *)
Fixpoint rep (n : nat) (r : regex) : regex :=
  match n with
  | 0 => Eps
  | 1 => r
  | S n' => Cat r (rep n' r)
  end.
(** [r{0,n}] *)
Fixpoint upto (n : nat) (r : regex) : regex :=
  match n with
  | 0 => Eps
  | S n' => opt (Cat r (upto n' r))
  end.
(** [r{lo,hi}] *)
Definition rep_range (lo hi : nat) (r : regex) : regex :=
  Cat (rep lo r) (upto (hi - lo) r).

(** [\d] and [[A-Za-z]] *)
Definition digit : regex := Chr PyStr.is_digit.
Definition letter : regex := Chr PyStr.is_alpha.

End Re.

(** ** The validator *)

Module Validator.
Import PyStr.

(** *** Exceptions *)

Inductive exn : Type :=
| KeyError (key : string)
| ReError (pattern : string).

Inductive result (A : Type) : Type :=
| Ok (a : A)
| Raise (e : exn).
Arguments Ok {A} a.
Arguments Raise {A} e.

#[global] Instance result_ret : MRet result := @Ok.
#[global] Instance result_bind : MBind result :=
  λ A B f m, match m with Ok a => f a | Raise e => Raise e end.
#[global] Instance result_fmap : FMap result :=
  λ A B f m, match m with Ok a => Ok (f a) | Raise e => Raise e end.

(** [d[key]] on a key that may be absent *)
Definition getitem {A} (key : string) (o : option A) : result A :=
  match o with
  | Some a => Ok a
  | None => Raise (KeyError key)
  end.

Fixpoint foldM {S A} (f : S → A → result S) (st : S) (l : list A)
    : result S :=
  match l with
  | [] => Ok st
  | a :: l' => st' ← f st a; foldM f st' l'
  end.

(** *** The report *)

Inductive Severity : Type := SevError | SevWarning.

(** The dict [_validate_field] returns. *)
Record Finding : Type := {
  row : nat;
  column : string;
  value : string;
  error : string;
  severity : Severity
}.

(** The ['type'] of a subject-id finding: ['unknown'], ['name'],
    ['invalid']. *)
Inductive SubjectType : Type := unknown | name | invalid.

(** The dict [_validate_subject_id] returns. *)
Record SubjectFinding : Type := {
  sid_row : nat;
  sid_value : string;
  sid_type : SubjectType;
  sid_error : string
}.

Record HeaderValidation : Type := {
  matching : gset string;
  missing : gset string;
  extra : gset string;
  is_valid : bool
}.

Record DataValidation : Type := {
  errors : list Finding;
  warnings : list Finding;
  total_rows : nat
}.

Record SubjectIdValidation : Type := {
  unknown_count : nat;
  name_count : nat;
  invalid_count : nat;
  examples : list SubjectFinding
}.

(** The dict [results] of [validate_csv]. *)
Record Results : Type := {
  file : string;
  timestamp : string;
  header_validation : HeaderValidation;
  data_validation : DataValidation;
  subject_id_validation : SubjectIdValidation
}.

#[global] Instance Severity_eq_dec : EqDecision Severity.
Proof. solve_decision. Defined.
#[global] Instance SubjectType_eq_dec : EqDecision SubjectType.
Proof. solve_decision. Defined.

(** A row as [csv.DictReader] yields it: field name to text, or to
    [None] where the line was short. *)
Abbreviation Row := (gmap string (option string)).

(** *** The patterns written in the source *)

(** [^(0[1-9]|1[0-2])/(0[1-9]|[12][0-9]|3[01])/\d{4}$] *)
Definition date_re : Re.regex :=
  Re.seq
    [ Re.Bol;
      Re.Alt (Re.Cat (Re.lit "0") (Re.range "1" "9"))
             (Re.Cat (Re.lit "1") (Re.range "0" "2"));
      Re.lit "/";
      Re.Alt (Re.Cat (Re.lit "0") (Re.range "1" "9"))
        (Re.Alt (Re.Cat (Re.one_of ["1"; "2"]%char) (Re.range "0" "9"))
                (Re.Cat (Re.lit "3") (Re.one_of ["0"; "1"]%char)));
      Re.lit "/";
      Re.rep 4 Re.digit;
      Re.Eol ].

(** [^\d{2}:\d{2}$] *)
Definition time_re : Re.regex :=
  Re.seq [ Re.Bol; Re.rep 2 Re.digit; Re.lit ":"; Re.rep 2 Re.digit;
           Re.Eol ].

(** [^[A-Za-z]{1,4}$] *)
Definition letters_re : Re.regex :=
  Re.seq [ Re.Bol; Re.rep_range 1 4 Re.letter; Re.Eol ].

(** [^[A-Za-z](\.[A-Za-z])*\.?$] *)
Definition dotted_re : Re.regex :=
  Re.seq [ Re.Bol; Re.letter; Re.Star (Re.Cat (Re.lit ".") Re.letter);
           Re.opt (Re.lit "."); Re.Eol ].

(** [^[A-Za-z]{1,4}$|^[A-Za-z](\.[A-Za-z])*\.?$] *)
Definition initials_re : Re.regex := Re.Alt letters_re dotted_re.

(** [not value], for a value that is a string or [None] *)
Definition falsy (value : option string) : bool :=
  match value with
  | None => true
  | Some s => bool_decide (s = "")
  end.

(** *** [_validate_subject_id] *)

Definition _validate_subject_id (value : option string) (row_num : nat)
    : option SubjectFinding :=
  if falsy value || bool_decide (strip (default "" value) = "")
  then None
  else
    let val := strip (default "" value) in
    if mem (lower val) ["unknown"; "unk"]
    then Some {| sid_row := row_num; sid_value := val;
                 sid_type := unknown;
                 sid_error :=
                   "Subject ID should not be " +:+ quoted "unknown" |}
    else if contains " " val &&
            (let parts := split val in
             (2 <=? length parts) && existsb (λ p, 3 <? len p) parts)
    then Some {| sid_row := row_num; sid_value := val;
                 sid_type := name;
                 sid_error := "Subject ID appears to be a full name. Use initials instead" |}
    else if negb (Re.matches initials_re val)
    then Some {| sid_row := row_num; sid_value := val;
                 sid_type := invalid;
                 sid_error :=
                   "Subject ID must be initials (e.g., " +:+ quoted "JD" +:+
                   ", " +:+ quoted "J.D." +:+ ", " +:+ quoted "J.D.S" +:+
                   ")" |}
    else None.

(** *** The validator object and [_validate_field] *)

Section WithPrimitives.

(** Python numbers: what [float] returns and what a JSON number is. *)
Context {number : Type}.
(** [float(s)]; [None] is [ValueError]. *)
Variable float : string → option number.
(** [x < y] and [x > y] *)
Variable num_lt num_gt : number → number → bool.
(** [f"{x}"] *)
Variable num_str : number → string.
(** The pattern [re.match] compiles from its first argument; [None] is
    [re.error]. *)
Variable re_compile : string → option Re.regex.
(** [Path(p).name] *)
Variable path_name : string → string.

(** One entry of [validations]: a JSON object with the keys the
    validator reads.  [None] is an absent key.  The validator never
    reads a key besides these seven; [r_other] says whether the object
    has one, which is all that [not rule] sees of them. *)
Record Rule : Type := {
  r_type : option string;
  r_values : option (list string);
  r_format : option string;
  r_min : option number;
  r_max : option number;
  r_pattern : option string;
  r_description : option string;
  r_other : bool
}.

(** [not rule]: the dict has no key, read or unread. *)
Definition rule_is_empty (rule : Rule) : bool :=
  match r_type rule, r_values rule, r_format rule, r_min rule,
        r_max rule, r_pattern rule, r_description rule with
  | None, None, None, None, None, None, None => negb (r_other rule)
  | _, _, _, _, _, _, _ => false
  end.

(** The fields of [self] the validation reads. *)
Record WADEPSValidator : Type := {
  headers : list string;
  validations : gmap string Rule
}.

Variable self : WADEPSValidator.

(** [f"Must be one of: {', '.join(values[:5])}{'...' if len(values) > 5 else ''}"] *)
Definition must_be_one_of (values : list string) : string :=
  "Must be one of: " +:+ join ", " (take 5 values) +:+
  (if 5 <? length values then "..." else "").

Definition _validate_field (header : string) (value : option string)
    (row_num : nat) : result (option Finding) :=
  if falsy value || bool_decide (strip (default "" value) = "")
  then Ok None
  else
    match validations self !! header with
    | None => Ok None
    | Some rule =>
        if rule_is_empty rule then Ok None
        else
          let value := strip (default "" value) in
          let finding (msg : string) : result (option Finding) :=
            Ok (Some {| row := row_num; column := header;
                        value := value; error := msg;
                        severity := SevError |}) in
          ty ← getitem "type" (r_type rule);
          if bool_decide (ty = "list") then
            values ← getitem "values" (r_values rule);
            if negb (mem value values) then
              if (length values =? 2) && mem "Yes" values
                 && mem "No" values
              then
                if negb (mem (lower value) (map lower values))
                then finding (must_be_one_of values)
                else Ok None
              else finding (must_be_one_of values)
            else Ok None
          else if bool_decide (ty = "date") then
            if negb (Re.matches date_re value)
            then finding ("Invalid date format. Expected " +:+
                          default "MM/DD/YYYY" (r_format rule))
            else Ok None
          else if bool_decide (ty = "time") then
            if negb (Re.matches time_re value)
            then finding ("Invalid time format. Expected " +:+
                          default "HH:MM" (r_format rule))
            else Ok None
          else if bool_decide (ty = "number") then
            match float value with
            | Some num =>
                let check_max : result (option Finding) :=
                  match r_max rule with
                  | Some hi =>
                      if num_gt num hi
                      then finding ("Value must be <= " +:+ num_str hi)
                      else Ok None
                  | None => Ok None
                  end in
                match r_min rule with
                | Some lo =>
                    if num_lt num lo
                    then finding ("Value must be >= " +:+ num_str lo)
                    else check_max
                | None => check_max
                end
            | None => finding "Must be a number"
            end
          else if bool_decide (ty = "pattern") then
            pattern ← getitem "pattern" (r_pattern rule);
            match re_compile pattern with
            | None => Raise (ReError pattern)
            | Some r =>
                if negb (Re.matches r (upper value))
                then finding (default ("Must match pattern: " +:+ pattern)
                                (r_description rule))
                else Ok None
            end
          else Ok None
    end.

(** *** [validate_csv] *)

(** Lines 79 to 85: the header check. *)
Definition header_check (expected actual : list string)
    : HeaderValidation :=
  let template_set : gset string := list_to_set expected in
  let csv_set : gset string := list_to_set actual in
  let missing := template_set ∖ csv_set in
  {| matching := template_set ∩ csv_set;
     missing := missing;
     extra := csv_set ∖ template_set;
     is_valid := size missing =? 0 |}.

Definition set_data (dv : DataValidation) (res : Results) : Results :=
  {| file := file res; timestamp := timestamp res;
     header_validation := header_validation res;
     data_validation := dv;
     subject_id_validation := subject_id_validation res |}.

Definition set_subject (sv : SubjectIdValidation) (res : Results)
    : Results :=
  {| file := file res; timestamp := timestamp res;
     header_validation := header_validation res;
     data_validation := data_validation res;
     subject_id_validation := sv |}.

(** [results['data_validation']['total_rows'] += 1] *)
Definition count_row (res : Results) : Results :=
  let dv := data_validation res in
  set_data {| errors := errors dv; warnings := warnings dv;
              total_rows := total_rows dv + 1 |} res.

(** The append of lines 101 to 104. *)
Definition record_finding (f : Finding) (res : Results) : Results :=
  let dv := data_validation res in
  match severity f with
  | SevError =>
      set_data {| errors := errors dv ++ [f]; warnings := warnings dv;
                  total_rows := total_rows dv |} res
  | SevWarning =>
      set_data {| errors := errors dv; warnings := warnings dv ++ [f];
                  total_rows := total_rows dv |} res
  end.

(** The body of [for header in csv_headers]. *)
Definition field_step (row_num : nat) (row : Row) (res : Results)
    (header : string) : result Results :=
  if bool_decide (is_Some (validations self !! header)) then
    let value := default (Some "") (row !! header) in
    validation_result ← _validate_field header value row_num;
    match validation_result with
    | Some f => Ok (record_finding f res)
    | None => Ok res
    end
  else Ok res.

(** The three counters of lines 110 to 115. *)
Definition count_subject (ty : SubjectType) (sv : SubjectIdValidation)
    : SubjectIdValidation :=
  match ty with
  | unknown =>
      {| unknown_count := unknown_count sv + 1;
         name_count := name_count sv;
         invalid_count := invalid_count sv; examples := examples sv |}
  | name =>
      {| unknown_count := unknown_count sv;
         name_count := name_count sv + 1;
         invalid_count := invalid_count sv; examples := examples sv |}
  | invalid =>
      {| unknown_count := unknown_count sv;
         name_count := name_count sv;
         invalid_count := invalid_count sv + 1; examples := examples sv |}
  end.

(** Lines 117 and 118. *)
Definition keep_example (f : SubjectFinding) (sv : SubjectIdValidation)
    : SubjectIdValidation :=
  if length (examples sv) <? 5
  then {| unknown_count := unknown_count sv;
          name_count := name_count sv;
          invalid_count := invalid_count sv;
          examples := examples sv ++ [f] |}
  else sv.

(** Lines 107 to 118: the subject-id part of a row. *)
Definition subject_step (row_num : nat) (row : Row) (res : Results)
    : Results :=
  match row !! "subject_id" with
  | Some value =>
      match _validate_subject_id value row_num with
      | Some subject_result =>
          set_subject
            (keep_example subject_result
               (count_subject (sid_type subject_result)
                  (subject_id_validation res)))
            res
      | None => res
      end
  | None => res
  end.

(** The body of [for row_num, row in enumerate(reader, start=2)]. *)
Definition row_step (csv_headers : list string) (row_num : nat)
    (row : Row) (res : Results) : result Results :=
  res' ← foldM (field_step row_num row) (count_row res) csv_headers;
  Ok (subject_step row_num row res').

Fixpoint process_rows (csv_headers : list string) (row_num : nat)
    (rows : list Row) (res : Results) : result Results :=
  match rows with
  | [] => Ok res
  | row :: rows' =>
      res' ← row_step csv_headers row_num row res;
      process_rows csv_headers (S row_num) rows' res'
  end.

(** [validate_csv], given what the run reads from its surroundings:
    [now], the text of [datetime.now().isoformat()], and the header
    line and rows that [csv.DictReader] yields for the file. *)
Definition validate_csv (now : string) (csv_path : string)
    (csv_headers : list string) (rows : list Row) : result Results :=
  let results :=
    {| file := path_name csv_path;
       timestamp := now;
       header_validation := header_check (headers self) csv_headers;
       data_validation :=
         {| errors := []; warnings := []; total_rows := 0 |};
       subject_id_validation :=
         {| unknown_count := 0; name_count := 0; invalid_count := 0;
            examples := [] |} |} in
  process_rows csv_headers 2 rows results.

End WithPrimitives.

End Validator.

(** ** The predicates of the statements *)

Module Shapes.
Import PyStr Validator.

(** The number a digit stands for. *)
Definition digit_val (c : ascii) : nat := code c - 48.

(** [MM/DD/YYYY] with MM in 01 to 12, DD in 01 to 31 and four digits of
    year. *)
Definition date_shape (s : string) : Prop :=
  match chars s with
  | [m1; m2; s1; d1; d2; s2; y1; y2; y3; y4] =>
      s1 = "/"%char ∧ s2 = "/"%char ∧
      Forall (λ c, is_digit c = true) [m1; m2; d1; d2; y1; y2; y3; y4] ∧
      1 ≤ 10 * digit_val m1 + digit_val m2 ≤ 12 ∧
      1 ≤ 10 * digit_val d1 + digit_val d2 ≤ 31
  | _ => False
  end.

(** The date pattern read character by character. *)
Definition month_b (m1 m2 : ascii) : bool :=
  Ascii.eqb "0" m1 && between 49 57 m2 ||
  Ascii.eqb "1" m1 && between 48 50 m2.
Definition day_b (d1 d2 : ascii) : bool :=
  Ascii.eqb "0" d1 && between 49 57 d2 ||
  (Ascii.eqb d1 "1" || Ascii.eqb d1 "2") && between 48 57 d2 ||
  Ascii.eqb "3" d1 && (Ascii.eqb d2 "0" || Ascii.eqb d2 "1").
Definition date_b (l : list ascii) : bool :=
  match l with
  | m1 :: m2 :: s1 :: d1 :: d2 :: s2 :: y1 :: y2 :: y3 :: y4 :: rest =>
      month_b m1 m2 && Ascii.eqb "/" s1 && day_b d1 d2 && Ascii.eqb "/" s2
      && is_digit y1 && is_digit y2 && is_digit y3 && is_digit y4
      && Re.at_eol rest
  | _ => false
  end.

(** The allowed values are the two values Yes and No, in either
    order. *)
Definition yes_no (values : list string) : Prop :=
  values = ["Yes"; "No"] ∨ values = ["No"; "Yes"].

(** The name test of lines 250 to 252: a space in the value, two or
    more parts, one of them longer than three characters. *)
Definition looks_like_name (val : string) : Prop :=
  contains " " val = true ∧ 2 ≤ length (split val) ∧
  ∃ p, p ∈ split val ∧ 3 < len p.

(** The first test: the value is unknown or unk, in any case. *)
Definition says_unknown (val : string) : Prop :=
  lower val ∈ ["unknown"; "unk"].

(** The value has one of the two forms of initials. *)
Definition is_initials (val : string) : Prop :=
  Re.matches letters_re val = true ∨ Re.matches dotted_re val = true.


(** The subject-id findings of the rows, in row order, numbered from
    [row_num]. *)
Fixpoint subject_findings (row_num : nat) (rows : list Row)
    : list SubjectFinding :=
  match rows with
  | [] => []
  | row :: rows' =>
      match row !! "subject_id" with
      | Some value =>
          option_list (_validate_subject_id value row_num)
      | None => []
      end ++ subject_findings (S row_num) rows'
  end.

(** How many findings carry the type [ty]. *)
Definition count_type (ty : SubjectType) (l : list SubjectFinding) : nat :=
  length (filter (λ f, sid_type f = ty) l).

(** The report with another time stamp. *)
Definition set_timestamp (t : string) (res : Results) : Results :=
  {| file := file res; timestamp := t;
     header_validation := header_validation res;
     data_validation := data_validation res;
     subject_id_validation := subject_id_validation res |}.

Section WithPrimitives.
Context {number : Type}.
Variable re_compile : string → option Re.regex.

(** A rule that has the keys its type needs, with a pattern that
    compiles. *)
Definition rule_ok (rule : Rule (number := number)) : Prop :=
  rule_is_empty rule = true ∨
  ∃ ty, r_type rule = Some ty ∧
        (ty = "list" → is_Some (r_values rule)) ∧
        (ty = "pattern" →
           ∃ p, r_pattern rule = Some p ∧ is_Some (re_compile p)).

Definition schema_ok (self : WADEPSValidator (number := number)) : Prop :=
  ∀ header rule, validations self !! header = Some rule → rule_ok rule.
End WithPrimitives.

End Shapes.

(** ** An instance of the parameters, for the examples

    Numbers are integers, [float] reads integer numerals, and the
    compiler reads patterns made of letters and digits, which stand for
    themselves.  Numerals and patterns of other forms are outside this
    instance. *)

Module Sample.
Import PyStr Validator.

Fixpoint digits_value (acc : Z) (l : list ascii) : option Z :=
  match l with
  | [] => Some acc
  | c :: l' =>
      if is_digit c
      then digits_value (10 * acc + Z.of_nat (code c - 48)) l'
      else None
  end.

Definition unsigned (l : list ascii) : option Z :=
  match l with
  | [] => None
  | _ => digits_value 0 l
  end.

Definition float (s : string) : option Z :=
  match chars s with
  | c :: l =>
      if Ascii.eqb c "-" then Z.opp <$> unsigned l
      else if Ascii.eqb c "+" then unsigned l
      else unsigned (c :: l)
  | [] => None
  end.

Definition num_lt (x y : Z) : bool := (x <? y)%Z.
Definition num_gt (x y : Z) : bool := (x >? y)%Z.
Definition num_str (x : Z) : string := pretty x.

Definition re_compile (pattern : string) : option Re.regex :=
  if forallb (λ c, is_alpha c || is_digit c) (chars pattern)
  then Some (Re.seq (Re.lit <$> chars pattern))
  else None.

(** The text after the last slash. *)
Fixpoint name_go (cur : list ascii) (l : list ascii) : list ascii :=
  match l with
  | [] => rev cur
  | c :: l' => if Ascii.eqb c "/" then name_go [] l' else name_go (c :: cur) l'
  end.
Definition path_name (p : string) : string := str (name_go [] (chars p)).

Definition rule (ty : string) : @Rule Z :=
  {| r_type := Some ty; r_values := None; r_format := None;
     r_min := None; r_max := None; r_pattern := None;
     r_description := None; r_other := false |}.

Definition list_rule (values : list string) : @Rule Z :=
  {| r_type := Some "list"; r_values := Some values; r_format := None;
     r_min := None; r_max := None; r_pattern := None;
     r_description := None; r_other := false |}.

Definition number_rule (lo hi : option Z) : @Rule Z :=
  {| r_type := Some "number"; r_values := None; r_format := None;
     r_min := lo; r_max := hi; r_pattern := None;
     r_description := None; r_other := false |}.

Definition pattern_rule (p : string) (description : option string) : @Rule Z :=
  {| r_type := Some "pattern"; r_values := None; r_format := None;
     r_min := None; r_max := None; r_pattern := Some p;
     r_description := description; r_other := false |}.

(** A template with one rule of each kind and one of a kind the
    validator does not know. *)
Definition template : @WADEPSValidator Z :=
  {| headers := ["subject_id"; "event_date"];
     validations :=
       list_to_map
         [ ("event_date", rule "date");
           ("event_time", rule "time");
           ("armed", list_rule ["Yes"; "No"]);
           ("sex", list_rule ["Male"; "Female"]);
           ("age", number_rule (Some 10%Z) (Some 120%Z));
           ("agency", pattern_rule "WA" None);
           ("notes", rule "text") ] |}.

Definition validate_field : string → option string → nat →
    result (option Finding) :=
  _validate_field float num_lt num_gt num_str re_compile template.

Definition validate : string → string → list string → list Row →
    result Results :=
  validate_csv float num_lt num_gt num_str re_compile path_name template.

Definition tab : string := String (ascii_of_nat 9) "".

(** The two words John and Doe with a TAB between them. *)
Definition john_tab_doe : string := "John" +:+ tab +:+ "Doe".

(** A row that has only the subject-id field. *)
Definition subject_row (subject : string) : Row :=
  {[ "subject_id" := Some subject ]}.

(** Eight rows, seven of them with a subject-id finding. *)
Definition eight_rows : list Row :=
  subject_row <$>
    ["unknown"; "John Doe"; "123"; "JD"; "unk"; "Jane Roe"; "??";
     "UNKNOWN"].

(** The record of the end-to-end scenario. *)
Definition scenario_row : Row :=
  {[ "subject_id" := Some "John Doe"; "event_date" := Some "13/45/2024" ]}.

Definition empty_template : @WADEPSValidator Z :=
  {| headers := []; validations := ∅ |}.

End Sample.

(** ** The consumers of the report

    [_group_errors_by_type], the status of [generate_dashboard], the
    lines of [print_summary], the shortened header of the dashboard and
    the counts of [process_auto_mode]. *)

Module Reports.
Import PyStr Validator.

(** [p in s] for two strings: [p] occurs in [s] as a substring. *)
Fixpoint starts_with (p l : list ascii) : bool :=
  match p, l with
  | [], _ => true
  | a :: p', b :: l' => Ascii.eqb a b && starts_with p' l'
  | _ :: _, [] => false
  end.

Fixpoint occurs_in (p l : list ascii) : bool :=
  starts_with p l ||
  match l with
  | [] => false
  | _ :: l' => occurs_in p l'
  end.

Definition str_in (p s : string) : bool := occurs_in (chars p) (chars s).

(** *** [_group_errors_by_type] *)

(** Lines 622 to 630: the type of one error, read off its message. *)
Definition error_type (error_msg : string) : string :=
  if str_in "date format" (lower error_msg) then "Date Format Issues"
  else if str_in "time format" (lower error_msg) then "Time Format Issues"
  else if str_in "Must be one of" error_msg then "Invalid Dropdown Values"
  else "Other Validation Issues".

(** A dict from strings to lists, in the order its keys came in. *)
Abbreviation Groups := (list (string * list Finding)).

(** [d.get(k)] *)
Fixpoint group_get (k : string) (d : Groups) : option (list Finding) :=
  match d with
  | [] => None
  | (k', l) :: d' => if bool_decide (k = k') then Some l else group_get k d'
  end.

(** Lines 632 to 634: a new key starts an empty list at the end of the
    dict; the error is appended to the list of its key. *)
Fixpoint group_append (k : string) (e : Finding) (d : Groups) : Groups :=
  match d with
  | [] => [(k, [e])]
  | (k', l) :: d' =>
      if bool_decide (k = k') then (k', l ++ [e]) :: d'
      else (k', l) :: group_append k e d'
  end.

Definition _group_errors_by_type (errors : list Finding) : Groups :=
  fold_left (λ error_types e, group_append (error_type (error e)) e error_types)
    errors [].

(** *** [generate_dashboard]: the metrics and the status *)

Definition total_errors (results : Results) : nat :=
  length (errors (data_validation results)).
Definition total_warnings (results : Results) : nat :=
  length (warnings (data_validation results)).
Definition header_issues (results : Results) : nat :=
  size (missing (header_validation results)) +
  size (extra (header_validation results)).
Definition subject_issues (results : Results) : nat :=
  unknown_count (subject_id_validation results) +
  name_count (subject_id_validation results) +
  invalid_count (subject_id_validation results).

(** Lines 322 to 334: [status]. *)
Definition dashboard_status (results : Results) : string :=
  if negb (is_valid (header_validation results))
     || (0 <? total_errors results)
  then "failed"
  else if (0 <? total_warnings results) || (0 <? subject_issues results)
  then "warning"
  else "passed".

(** Lines 569 and 600: whether the dashboard says the file is ready. *)
Definition dashboard_ready (results : Results) : bool :=
  is_valid (header_validation results) && (total_errors results =? 0)
  && (subject_issues results =? 0).

(** Lines 429 and 446: a header as the dashboard lists it. *)
Definition display_header (header : string) : string :=
  if len header <=? 60 then header
  else str (take 57 (chars header)) +:+ "...".

(** *** [print_summary]: the lines it prints *)

Definition newline : string := String (ascii_of_nat 10) "".

(** Lines 743 to 749: the last line. *)
Definition summary_status (results : Results) : string :=
  let hv := header_validation results in
  let dv := data_validation results in
  let total_issues := subject_issues results in
  if is_valid hv && (length (errors dv) =? 0) && (total_issues =? 0)
  then "    PASSED - File meets all requirements"
  else if (0 <? size (missing hv)) || (10 <? length (errors dv))
  then "    FAILED - Critical issues found"
  else "    PASSED WITH WARNINGS".

Definition print_summary (results : Results) : list string :=
  let hv := header_validation results in
  let dv := data_validation results in
  let total_issues := subject_issues results in
  [newline +:+ "  Summary for " +:+ file results +:+ ":"] ++
  (if 0 <? size (missing hv)
   then ["    Missing " +:+ pretty (size (missing hv)) +:+
         " required headers"]
   else []) ++
  (if 0 <? length (errors dv)
   then ["    " +:+ pretty (length (errors dv)) +:+ " data errors found"]
   else []) ++
  (if 0 <? total_issues
   then ["    " +:+ pretty total_issues +:+ " subject ID issues"]
   else []) ++
  [summary_status results].

(** *** [process_auto_mode]: the counts of the run *)

(** The test of lines 914 to 916. *)
Definition counts_as_passed (r : Results) : bool :=
  is_valid (header_validation r) &&
  (length (errors (data_validation r)) =? 0).

Definition total_passed (all_results : list Results) : nat :=
  length (filter (λ r, counts_as_passed r = true) all_results).

Definition total_failed (all_results : list Results) : nat :=
  length all_results - total_passed all_results.

(** *** [generate_error_report]: the table of issues *)

(** One entry of [detailed_error_types]. *)
Record Detail : Type := {
  d_count : nat;
  d_example : string;
  d_fix : string
}.

Abbreviation Details := (list (string * Detail)).

(** Lines 682 to 693: the key and the fix of one error of a group. *)
Definition detail_key (group : string) (e : Finding) : string * string :=
  if str_in "Date Format" group
  then (column e +:+ ": Date format issue",
        "Use format MM/DD/YYYY (e.g., 09/23/2025)")
  else if str_in "Time Format" group
  then (column e +:+ ": Time format issue",
        "Use format HH:MM (e.g., 08:21)")
  else if str_in "Dropdown" group
  then (column e +:+ ": Invalid dropdown value",
        "Use exact value from dropdown list")
  else (column e +:+ ": " +:+ str (take 30 (chars (error e))),
        "Check validation requirements").

(** Lines 695 to 702: a new key starts at count 0 with the value of the
    error as its example; the count of the key goes up by one. *)
Fixpoint detail_add (key example fix_text : string) (d : Details)
    : Details :=
  match d with
  | [] =>
      [(key, {| d_count := 1; d_example := example; d_fix := fix_text |})]
  | (k, info) :: d' =>
      if bool_decide (key = k)
      then (k, {| d_count := d_count info + 1;
                  d_example := d_example info;
                  d_fix := d_fix info |}) :: d'
      else (k, info) :: detail_add key example fix_text d'
  end.

(** Lines 676 to 702: the two loops, over the groups and over the errors
    of each group. *)
Definition detailed_error_types (error_types : Groups) : Details :=
  fold_left
    (λ d item,
       fold_left
         (λ d e, detail_add (fst (detail_key (fst item) e)) (value e)
                   (snd (detail_key (fst item) e)) d)
         (snd item) d)
    error_types [].

(** [sorted(items, key=lambda x: -x[1]['count'])]: a stable sort, the
    larger count first; of two entries with the same count the one that
    came first stays first. *)
Fixpoint insert_by_count (x : string * Detail) (l : Details) : Details :=
  match l with
  | [] => [x]
  | y :: l' =>
      if d_count (snd y) <=? d_count (snd x) then x :: l
      else y :: insert_by_count x l'
  end.

Definition sorted_by_count (l : Details) : Details :=
  foldr insert_by_count [] l.

(** The rows of the section DATA VALIDATION ISSUES, in the order of the
    report. *)
Definition error_report_table (results : Results) : Details :=
  sorted_by_count
    (detailed_error_types
       (_group_errors_by_type (errors (data_validation results)))).

End Reports.

(** ** Further predicates and sample data *)

Module Cases.
Import PyStr Validator Shapes Reports.

(** [HH:MM], two digits each, with no bound on the numbers. *)
Definition time_shape (s : string) : Prop :=
  match chars s with
  | [h1; h2; c; m1; m2] =>
      c = ":"%char ∧ Forall (λ d, is_digit d = true) [h1; h2; m1; m2]
  | _ => False
  end.

(** The time pattern read character by character. *)
Definition time_b (l : list ascii) : bool :=
  match l with
  | h1 :: h2 :: c :: m1 :: m2 :: rest =>
      is_digit h1 && is_digit h2 && Ascii.eqb ":" c && is_digit m1
      && is_digit m2 && Re.at_eol rest
  | _ => false
  end.

(** A row that has no text in any of its fields. *)
Definition blank_row (row : Row) : Prop :=
  ∀ header value, row !! header = Some (Some value) → strip value = "".

(** The value [row.get(header, '')] of line 98. *)
Definition row_get (row : Row) (header : string) : option string :=
  default (Some "") (row !! header).

(** A character that may occur in initials: a letter or a dot. *)
Definition initial_char (c : ascii) : Prop :=
  is_alpha c = true ∨ c = "."%char.

(** Every character class of the pattern lies within [P]. *)
Fixpoint reads_only (P : ascii → Prop) (r : Re.regex) : Prop :=
  match r with
  | Re.Chr p => ∀ c, p c = true → P c
  | Re.Cat r1 r2 | Re.Alt r1 r2 => reads_only P r1 ∧ reads_only P r2
  | Re.Star r1 => reads_only P r1
  | Re.Eps | Re.Bol | Re.Eol => True
  end.

(** Every way through the pattern ends with [$]. *)
Fixpoint ends_at_eol (r : Re.regex) : Prop :=
  match r with
  | Re.Eol => True
  | Re.Cat _ r2 => ends_at_eol r2
  | Re.Alt r1 r2 => ends_at_eol r1 ∧ ends_at_eol r2
  | Re.Eps | Re.Chr _ | Re.Star _ | Re.Bol => False
  end.

(** The errors of a list that have the type [t], in their order. *)
Definition errors_of_type (t : string) (errors : list Finding)
    : list Finding :=
  filter (λ e, error_type (error e) = t) errors.

(** The sum of the counts of a table. *)
Definition table_total (d : Details) : nat :=
  foldr (λ item n, d_count (snd item) + n) 0 d.

(** A template with a list rule that has lost its values. *)
Definition broken_template : @WADEPSValidator Z :=
  {| headers := ["armed"];
     validations :=
       {[ "armed" := {| r_type := Some "list"; r_values := None;
                        r_format := None; r_min := None; r_max := None;
                        r_pattern := None; r_description := None;
                        r_other := false |} ]} |}.

Definition armed_row (answer : string) : Row :=
  {[ "armed" := Some answer ]}.

(** A row of the sample template with three faults. *)
Definition faulty_row : Row :=
  {[ "event_date" := Some "13/45/2024"; "event_time" := Some "8:21";
     "sex" := Some "male"; "age" := Some "50" ]}.

Definition sample_headers : list string :=
  ["subject_id"; "event_date"; "event_time"; "sex"; "age"].

(** A run of the sample template over a faulty row and a sound one. *)
Definition faulty_rows : list Row :=
  [faulty_row; Sample.subject_row "JD"].

Definition faulty_run : result Results :=
  Sample.validate "2024-05-01T09:00:00" "in.csv" sample_headers faulty_rows.

Definition eight_run : result Results :=
  Sample.validate "2024-05-01T09:00:00" "in.csv" ["subject_id"]
    Sample.eight_rows.

(** A run of the broken template. *)
Definition broken_run : result Results :=
  validate_csv Sample.float Sample.num_lt Sample.num_gt Sample.num_str
    Sample.re_compile Sample.path_name broken_template
    "2024-05-01T09:00:00" "in.csv" ["armed"]
    ([] ++ armed_row "Yes" :: [armed_row "No"]).

(** A row with white space for a subject id. *)
Definition blank_sample : Row := {[ "subject_id" := Some "   " ]}.

(** The report before the first row. *)
Definition fresh_results : Results :=
  {| file := "in.csv"; timestamp := "2024-05-01T09:00:00";
     header_validation := header_check ["subject_id"] ["subject_id"];
     data_validation := {| errors := []; warnings := []; total_rows := 0 |};
     subject_id_validation :=
       {| unknown_count := 0; name_count := 0; invalid_count := 0;
          examples := [] |} |}.





(** A rule that has a key, but none of those the validator reads. *)
Definition unread_rule : @Rule Z :=
  {| r_type := None; r_values := None; r_format := None; r_min := None;
     r_max := None; r_pattern := None; r_description := None;
     r_other := true |}.

Definition unread_template : @WADEPSValidator Z :=
  {| headers := ["armed"];
     validations := {[ "armed" := unread_rule ]} |}.


(** A finding that the rows [rows], numbered from [row_num], can give
    under the header line [csv_headers]: it names one of the rows and a
    column of the header line that has a rule, and carries the text of
    that field, trimmed and not empty, with the severity error. *)
Definition finding_of_rows {number : Type} (self : @WADEPSValidator number)
    (csv_headers : list string) (row_num : nat) (rows : list Row)
    (f : Finding) : Prop :=
  row_num ≤ row f < row_num + length rows ∧
  column f ∈ csv_headers ∧
  is_Some (validations self !! column f) ∧
  severity f = SevError ∧
  ∃ r raw, rows !! (row f - row_num) = Some r ∧
           r !! column f = Some (Some raw) ∧
           value f = strip raw ∧ strip raw ≠ "".

End Cases.

(** ** The matcher against the meaning of patterns *)

Module ReFacts.
Import Re.

Lemma star_loop_mono body k k' n before s :
  (∀ b t (c c' : cont),
      (∀ b' t', c b' t' = true → c' b' t' = true) →
      body b t c = true → body b t c' = true) →
  (∀ b t, k b t = true → k' b t = true) →
  star_loop body k n before s = true →
  star_loop body k' n before s = true.
Proof.
  intros Hbody Hk. revert before s.
  induction n as [|n IH]; intros before s; simpl.
  - rewrite !orb_false_r. apply Hk.
  - intros [H|H]%orb_true_iff; apply orb_true_iff; [left; by apply Hk|].
    right. revert H. apply Hbody. intros b' t'.
    intros [H1 H2]%andb_true_iff. apply andb_true_iff. split; [done|].
    by apply IH.
Qed.

Lemma go_mono r : ∀ before s (k k' : cont),
  (∀ b t, k b t = true → k' b t = true) →
  go r before s k = true → go r before s k' = true.
Proof.
  induction r as [|p|r1 IH1 r2 IH2|r1 IH1 r2 IH2|r IH| |];
    intros before s k k' Hk; simpl.
  - apply Hk.
  - destruct s as [|c s]; [done|].
    intros [H1 H2]%andb_true_iff. apply andb_true_iff. split; [done|].
    by apply Hk.
  - apply IH1. intros b t. by apply IH2.
  - intros [H|H]%orb_true_iff; apply orb_true_iff;
      [left; by eapply IH1|right; by eapply IH2].
  - apply star_loop_mono; [|done].
    intros b t c c' Hc. by apply IH.
  - intros [H1 H2]%andb_true_iff. apply andb_true_iff. split; [done|].
    by apply Hk.
  - intros [H1 H2]%andb_true_iff. apply andb_true_iff. split; [done|].
    by apply Hk.
Qed.

Lemma star_loop_fuel r k n n' before s :
  n ≤ n' →
  star_loop (go r) k n before s = true →
  star_loop (go r) k n' before s = true.
Proof.
  revert n' before s. induction n as [|n IH]; intros n' before s Hle; simpl.
  - rewrite orb_false_r. intros H. destruct n'; simpl; by rewrite H.
  - destruct n' as [|n']; [lia|]. simpl.
    intros [H|H]%orb_true_iff; apply orb_true_iff; [by left|right].
    revert H. apply go_mono. intros b t.
    intros [H1 H2]%andb_true_iff. apply andb_true_iff. split; [done|].
    apply IH; [lia|done].
Qed.

Lemma star_loop_sound r k
    (IH : ∀ before s (c : cont), go r before s c = true →
          ∃ w rest, s = w ++ rest ∧ lang r before w rest ∧
                    c (before ++ w) rest = true) :
  ∀ n before s, star_loop (go r) k n before s = true →
    ∃ w rest, s = w ++ rest ∧ lang (Star r) before w rest ∧
              k (before ++ w) rest = true.
Proof.
  induction n as [|n IHn]; intros before s; simpl.
  - rewrite orb_false_r. intros H. exists [], s.
    rewrite app_nil_r. split_and!; [done|constructor|done].
  - intros [H|H]%orb_true_iff.
    + exists [], s. rewrite app_nil_r. split_and!; [done|constructor|done].
    + apply IH in H as (w1 & rest1 & -> & Hw1 & [_ H]%andb_true_iff).
      apply IHn in H as (w2 & rest & -> & Hw2 & Hk).
      exists (w1 ++ w2), rest. rewrite <- !app_assoc in *.
      split_and!; [done| |done]. by constructor.
Qed.

Lemma go_sound r : ∀ before s (k : cont),
  go r before s k = true →
  ∃ w rest, s = w ++ rest ∧ lang r before w rest ∧
            k (before ++ w) rest = true.
Proof.
  induction r as [|p|r1 IH1 r2 IH2|r1 IH1 r2 IH2|r IH| |];
    intros before s k; simpl.
  - intros H. exists [], s. rewrite app_nil_r.
    split_and!; [done|constructor|done].
  - destruct s as [|c s]; [done|]. intros [H1 H2]%andb_true_iff.
    exists [c], s. split_and!; [done|by constructor|done].
  - intros H. apply IH1 in H as (w1 & rest1 & -> & Hw1 & H).
    apply IH2 in H as (w2 & rest & -> & Hw2 & Hk).
    exists (w1 ++ w2), rest. rewrite <- !app_assoc in *.
    split_and!; [done| |done]. by constructor.
  - intros [H|H]%orb_true_iff.
    + apply IH1 in H as (w & rest & -> & Hw & Hk).
      exists w, rest. split_and!; [done|by apply L_alt_l|done].
    + apply IH2 in H as (w & rest & -> & Hw & Hk).
      exists w, rest. split_and!; [done|by apply L_alt_r|done].
  - by apply star_loop_sound.
  - intros [H1 H2]%andb_true_iff. destruct before; [|done].
    exists [], s. split_and!; [done|constructor|done].
  - intros [H1 H2]%andb_true_iff. exists [], s. rewrite app_nil_r.
    split_and!; [done|by constructor|done].
Qed.

Lemma go_complete r before w rest :
  lang r before w rest →
  ∀ k : cont, k (before ++ w) rest = true →
              go r before (w ++ rest) k = true.
Proof.
  induction 1 as [before after|p c before after Hp
    |r1 r2 before w1 w2 after _ IH1 _ IH2
    |r1 r2 before w after _ IH|r1 r2 before w after _ IH
    |r before after|r before w1 w2 after H1 IH1 H2 IH2
    |after|before after Hend]; intros k Hk; simpl.
  - by rewrite app_nil_r in Hk.
  - by rewrite Hp.
  - rewrite <- app_assoc. apply IH1. apply IH2. by rewrite <- app_assoc.
  - by rewrite IH.
  - rewrite (IH k Hk). apply orb_true_r.
  - rewrite app_nil_r in Hk. destruct (length after); simpl; by rewrite Hk.
  - destruct w1 as [|c w1].
    { rewrite app_nil_r in IH2. by apply IH2. }
    rewrite app_assoc in Hk. specialize (IH2 k Hk). simpl in IH2.
    simpl. apply orb_true_iff. right.
    rewrite <- app_assoc. apply (IH1 _). apply andb_true_iff. split.
    + apply Nat.ltb_lt. simpl. rewrite !length_app. lia.
    + revert IH2. apply star_loop_fuel. rewrite !length_app. lia.
  - done.
  - rewrite app_nil_r in Hk. by rewrite Hend.
Qed.

(** [re.match] succeeds exactly when some prefix of the subject matches
    the pattern in place. *)
Lemma matches_spec r s :
  matches r s = true ↔
  ∃ w rest, PyStr.chars s = w ++ rest ∧ lang r [] w rest.
Proof.
  unfold matches. split.
  - intros H. apply go_sound in H as (w & rest & ? & ? & _). eauto.
  - intros (w & rest & -> & H). by apply (go_complete _ _ _ _ H).
Qed.

End ReFacts.

(** ** Facts about the string methods *)

Module StrFacts.
Import PyStr.

Lemma chars_str l : chars (str l) = l.
Proof. apply String.list_ascii_of_string_of_list_ascii. Qed.

Lemma str_chars s : str (chars s) = s.
Proof. apply String.string_of_list_ascii_of_string. Qed.

Lemma chars_inj s1 s2 : chars s1 = chars s2 → s1 = s2.
Proof. intros H. by rewrite <- (str_chars s1), H, str_chars. Qed.

Lemma chars_empty s : chars s = [] ↔ s = "".
Proof.
  split; [|by intros ->]. intros H. by apply chars_inj.
Qed.

Lemma lstrip_chars_head l c l' :
  lstrip_chars l = c :: l' → isspace c = false.
Proof.
  induction l as [|a l IH]; simpl; [done|].
  destruct (isspace a) eqn:Ha; [done|]. by intros [= <- _].
Qed.

(** What [strip] returns does not end in white space. *)
Lemma strip_chars_last l l' c :
  strip_chars l = l' ++ [c] → isspace c = false.
Proof.
  unfold strip_chars, rstrip_chars. intros H.
  apply (f_equal (@rev ascii)) in H. rewrite rev_involutive, rev_app_distr in H.
  simpl in H. by apply lstrip_chars_head in H.
Qed.

Lemma isspace_newline : isspace Re.newline = true.
Proof. reflexivity. Qed.

Lemma strip_no_final_newline s l' :
  chars (strip s) ≠ l' ++ [Re.newline].
Proof.
  unfold strip. rewrite chars_str. intros H.
  apply strip_chars_last in H. by rewrite isspace_newline in H.
Qed.

Lemma between_spec lo hi c :
  between lo hi c = true ↔ lo ≤ code c ≤ hi.
Proof.
  unfold between. rewrite andb_true_iff, !Nat.leb_le. lia.
Qed.

Lemma code_inj c1 c2 : code c1 = code c2 → c1 = c2.
Proof.
  unfold code. intros H.
  by rewrite <- (ascii_nat_embedding c1), H, ascii_nat_embedding.
Qed.

Lemma eqb_code c1 c2 : Ascii.eqb c1 c2 = true ↔ code c2 = code c1.
Proof.
  rewrite Ascii.eqb_eq. split; [by intros ->|]. intros H.
  symmetry. by apply code_inj.
Qed.

Lemma mem_spec x l : mem x l = true ↔ x ∈ l.
Proof. unfold mem. apply bool_decide_eq_true. Qed.

Lemma mem_false x l : mem x l = false ↔ x ∉ l.
Proof. unfold mem. apply bool_decide_eq_false. Qed.

End StrFacts.

(** ** The date pattern and the shape MM/DD/YYYY *)

Module DateFacts.
Import PyStr Validator Shapes StrFacts.

Lemma char_eq_code (c k : ascii) : c = k ↔ code c = code k.
Proof. split; [by intros ->|apply code_inj]. Qed.

Lemma at_eol_cons c l l0 :
  (∀ l', l0 ++ c :: l ≠ l' ++ [Re.newline]) → Re.at_eol (c :: l) = false.
Proof.
  intros H. destruct l as [|c' l]; [|done]. simpl.
  apply not_true_iff_false. intros ->%Ascii.eqb_eq. by apply (H l0).
Qed.

Ltac char_facts :=
  repeat first
    [ rewrite andb_true_iff | rewrite orb_true_iff | rewrite eqb_code
    | rewrite between_spec | rewrite char_eq_code ].

Lemma go_date l : Re.go date_re [] l (λ _ _, true) = date_b l.
Proof.
  unfold date_b.
  do 10 (destruct l as [|? l]; [simpl; rewrite ?andb_false_r; done|]).
  unfold date_re, month_b, day_b.
  cbn -[Ascii.eqb between is_digit Re.at_eol code].
  change (code "0") with 48. change (code "1") with 49.
  change (code "2") with 50. change (code "9") with 57.
  btauto.
Qed.

Lemma month_b_spec m1 m2 :
  month_b m1 m2 = true ↔
  is_digit m1 = true ∧ is_digit m2 = true ∧
  1 ≤ 10 * digit_val m1 + digit_val m2 ≤ 12.
Proof.
  unfold month_b, is_digit, digit_val. char_facts.
  change (code "0") with 48. change (code "1") with 49. lia.
Qed.

Lemma day_b_spec d1 d2 :
  day_b d1 d2 = true ↔
  is_digit d1 = true ∧ is_digit d2 = true ∧
  1 ≤ 10 * digit_val d1 + digit_val d2 ≤ 31.
Proof.
  unfold day_b, is_digit, digit_val. char_facts.
  change (code "0") with 48. change (code "1") with 49.
  change (code "2") with 50. change (code "3") with 51. lia.
Qed.

(** On a string that does not end in a newline, [re.match] with the
    date pattern succeeds exactly on the shape MM/DD/YYYY. *)
Lemma date_re_shape s :
  (∀ l', chars s ≠ l' ++ [Re.newline]) →
  Re.matches date_re s = true ↔ date_shape s.
Proof.
  unfold Re.matches, date_shape. rewrite go_date.
  generalize (chars s) as l. clear s. intros l Hnl. unfold date_b.
  do 10 (destruct l as [|? l]; [done|]).
  destruct l as [|c l].
  - simpl Re.at_eol. rewrite !andb_true_iff, month_b_spec, day_b_spec.
    rewrite !Forall_cons, Forall_nil, !Ascii.eqb_eq.
    intuition (subst; auto).
  - rewrite (at_eol_cons c l [a; a0; a1; a2; a3; a4; a5; a6; a7; a8])
      by done.
    rewrite andb_false_r. done.
Qed.

End DateFacts.

(** ** The header check *)

Module HeaderFacts.
Import PyStr Validator Shapes StrFacts.

Lemma gset_size_zero (X : gset string) : (size X =? 0) = true ↔ X = ∅.
Proof.
  rewrite Nat.eqb_eq. split.
  - intros H. by apply leibniz_equiv, size_empty_iff.
  - intros ->. apply size_empty.
Qed.

(** C2. For any two sequences of names, the header check reads both as
    sets: matching is their intersection, missing is expected minus
    actual, extra is actual minus expected; matching with missing makes
    up the expected names, matching with extra the actual names,
    matching and missing share nothing, and is_valid holds exactly when
    nothing is missing, whatever is extra. *)
Theorem header_check_sets (expected actual : list string) :
  let hv := header_check expected actual in
  let E : gset string := list_to_set expected in
  let A : gset string := list_to_set actual in
  matching hv = E ∩ A ∧
  missing hv = E ∖ A ∧
  extra hv = A ∖ E ∧
  matching hv ∪ missing hv = E ∧
  matching hv ∪ extra hv = A ∧
  matching hv ∩ missing hv = ∅ ∧
  (is_valid hv = true ↔ missing hv = ∅) ∧
  (∀ x, x ∈ matching hv ↔ x ∈ expected ∧ x ∈ actual) ∧
  (∀ x, x ∈ missing hv ↔ x ∈ expected ∧ x ∉ actual) ∧
  (∀ x, x ∈ extra hv ↔ x ∈ actual ∧ x ∉ expected).
Proof.
  simpl. split_and!; try done.
  - apply set_eq. intros x.
    destruct (decide (x ∈ (list_to_set actual : gset string))); set_solver.
  - apply set_eq. intros x.
    destruct (decide (x ∈ (list_to_set expected : gset string)));
      set_solver.
  - set_solver.
  - apply gset_size_zero.
  - set_solver.
  - set_solver.
  - set_solver.
Qed.

End HeaderFacts.

(** ** The subject-id check *)

Module SubjectFacts.
Import PyStr Validator Shapes StrFacts.

Lemma strip_nonempty value :
  strip value ≠ "" →
  falsy (Some value) || bool_decide (strip value = "") = false.
Proof.
  intros H. apply orb_false_iff. split.
  - simpl. apply bool_decide_eq_false. by intros ->.
  - by apply bool_decide_eq_false.
Qed.

Lemma looks_like_name_spec val :
  contains " " val &&
    ((2 <=? length (split val)) && existsb (λ p, 3 <? len p) (split val))
  = true ↔ looks_like_name val.
Proof.
  unfold looks_like_name.
  rewrite !andb_true_iff, Nat.leb_le, existsb_exists.
  setoid_rewrite Nat.ltb_lt. setoid_rewrite <- list_elem_of_In. done.
Qed.

Lemma initials_re_alt val :
  Re.matches initials_re val =
  Re.matches letters_re val || Re.matches dotted_re val.
Proof. reflexivity. Qed.

End SubjectFacts.

(** ** The pattern of one to four letters *)

Module InitialsFacts.
Import PyStr Validator Shapes StrFacts.

Lemma last_not_newline (l0 : list ascii) c :
  (∀ l', l0 ++ [c] ≠ l' ++ [Re.newline]) → Ascii.eqb c Re.newline = false.
Proof.
  intros H. apply not_true_iff_false. intros ->%Ascii.eqb_eq. by apply (H l0).
Qed.

Lemma letters_re_shape s :
  (∀ l', chars s ≠ l' ++ [Re.newline]) →
  Re.matches letters_re s = true ↔
  1 ≤ len s ≤ 4 ∧ Forall (λ c, is_alpha c = true) (chars s).
Proof.
  unfold Re.matches, len. generalize (chars s) as l. clear s. intros l Hnl.
  unfold letters_re.
  destruct l as [|a [|b [|c [|d [|e l]]]]];
    cbn -[is_alpha Ascii.eqb Re.at_eol]; [cbn [Re.at_eol]..|].
  - split; [done|lia].
  - rewrite !Forall_cons, Forall_nil.
    destruct (is_alpha a); cbn; split; try done; try lia; naive_solver lia.
  - rewrite (last_not_newline [a] b Hnl).
    rewrite !Forall_cons, Forall_nil.
    destruct (is_alpha a), (is_alpha b); cbn; split; try done; try lia;
      naive_solver lia.
  - rewrite (last_not_newline [a; b] c Hnl).
    rewrite !Forall_cons, Forall_nil.
    destruct (is_alpha a), (is_alpha b), (is_alpha c); cbn; split;
      try done; try lia; naive_solver lia.
  - rewrite (last_not_newline [a; b; c] d Hnl).
    rewrite !Forall_cons, Forall_nil.
    destruct (is_alpha a), (is_alpha b), (is_alpha c), (is_alpha d); cbn;
      split; try done; try lia; naive_solver lia.
  - assert (Re.at_eol (e :: l) = false) as ->
      by (apply (DateFacts.at_eol_cons e l [a; b; c; d]), Hnl).
    cbn [Re.at_eol]. split; [|lia].
    destruct (is_alpha a), (is_alpha b), (is_alpha c), (is_alpha d); done.
Qed.

(** On a trimmed value the first pattern for initials is: one to four
    characters, all of them letters. *)
Lemma letters_re_trimmed value :
  Re.matches letters_re (strip value) = true ↔
  1 ≤ len (strip value) ≤ 4 ∧
  Forall (λ c, is_alpha c = true) (chars (strip value)).
Proof. apply letters_re_shape, strip_no_final_newline. Qed.

(** A pattern that ends in [$] reads what follows its match: the match
    at the start alone is not enough. *)
Example end_anchor_reads_the_suffix :
  Re.matches (Re.Cat (Re.lit "A") Re.Eol) "A" = true ∧
  Re.matches (Re.Cat (Re.lit "A") Re.Eol) "AB" = false ∧
  Re.matches (Re.lit "A") "AB" = true.
Proof. split_and!; reflexivity. Qed.

End InitialsFacts.

Module SubjectClaims.
Import PyStr Validator Shapes StrFacts SubjectFacts.

Lemma subject_id_cases value row_num :
  strip value ≠ "" →
  let val := strip value in
  let r := _validate_subject_id (Some value) row_num in
  (says_unknown val → sid_type <$> r = Some unknown) ∧
  (¬ says_unknown val → looks_like_name val →
     sid_type <$> r = Some name) ∧
  (¬ says_unknown val → ¬ looks_like_name val → ¬ is_initials val →
     sid_type <$> r = Some invalid) ∧
  (¬ says_unknown val → ¬ looks_like_name val → is_initials val →
     r = None) ∧
  (∀ f, r = Some f → sid_row f = row_num ∧ sid_value f = val).
Proof.
  intros Hne. simpl. unfold _validate_subject_id.
  rewrite strip_nonempty by done. simpl default.
  unfold says_unknown, is_initials.
  rewrite <- looks_like_name_spec, <- mem_spec.
  rewrite <- !orb_true_iff, <- initials_re_alt.
  destruct (mem _ _); [split_and!; try done; by intros f [= <-]|].
  destruct (contains _ _ && _);
    [split_and!; try done; by intros f [= <-]|].
  destruct (Re.matches initials_re _); simpl;
    split_and!; try done; by intros f [= <-].
Qed.

End SubjectClaims.

(** ** The field check, rule by rule *)

Module FieldFacts.
Import PyStr Validator Shapes StrFacts SubjectFacts.

Section WithPrimitives.
Context {number : Type}.
Variable float : string → option number.
Variable num_lt num_gt : number → number → bool.
Variable num_str : number → string.
Variable re_compile : string → option Re.regex.
Variable self : @WADEPSValidator number.

Local Abbreviation validate_field :=
  (_validate_field float num_lt num_gt num_str re_compile self).

Lemma typed_rule_not_empty (rule : @Rule number) ty :
  r_type rule = Some ty → rule_is_empty rule = false.
Proof. unfold rule_is_empty. by intros ->. Qed.

(** A value that is empty once trimmed is not checked at all. *)
Lemma empty_value_passes header value row_num :
  strip value = "" →
  validate_field header (Some value) row_num = Ok None.
Proof.
  intros H. unfold _validate_field.
  rewrite (bool_decide_eq_true_2 _ H). by rewrite orb_true_r.
Qed.

Lemma none_value_passes header row_num :
  validate_field header None row_num = Ok None.
Proof. reflexivity. Qed.

Lemma no_rule_passes header value row_num :
  validations self !! header = None →
  validate_field header value row_num = Ok None.
Proof.
  intros H. unfold _validate_field. rewrite H.
  by destruct (falsy value || _).
Qed.

(** A rule of a type other than the five the validator knows lets
    every value pass. *)
Lemma unknown_type_passes header rule ty value row_num :
  validations self !! header = Some rule →
  r_type rule = Some ty →
  ty ∉ ["list"; "date"; "time"; "number"; "pattern"] →
  validate_field header value row_num = Ok None.
Proof.
  intros Hrule Hty Hnot. unfold _validate_field.
  destruct (falsy value || _); [done|].
  rewrite Hrule, (typed_rule_not_empty _ _ Hty), Hty. simpl.
  rewrite !bool_decide_eq_false_2; [done|set_solver..].
Qed.


(** How a value that is not empty reaches the branch of its rule. *)
Ltac enter_rule Hrule Hty Hne :=
  unfold _validate_field; cbn [from_option id];
  rewrite (strip_nonempty _ Hne), Hrule,
    (typed_rule_not_empty _ _ Hty), Hty;
  simpl.

Lemma yes_no_test values :
  (length values =? 2) && mem "Yes" values && mem "No" values = true
  ↔ yes_no values.
Proof.
  unfold yes_no.
  rewrite !andb_true_iff, Nat.eqb_eq, !mem_spec. split.
  - intros [[Hlen Hyes] Hno].
    destruct values as [|a [|b [|c values]]]; try done.
    apply elem_of_cons in Hyes as [<-|Hyes];
      apply elem_of_cons in Hno as [Hno|Hno]; try done.
    + apply list_elem_of_singleton in Hno as <-. by left.
    + apply list_elem_of_singleton in Hyes as <-. subst. by right.
    + apply list_elem_of_singleton in Hyes as <-.
      by apply list_elem_of_singleton in Hno.
  - intros [->| ->]; split_and!; try done; set_solver.
Qed.

Lemma lower_elem_of v values :
  v ∈ values → lower v ∈ map lower values.
Proof. intros H. by apply list_elem_of_fmap_2. Qed.

Lemma list_rule_outcome header rule values value row_num :
  validations self !! header = Some rule →
  r_type rule = Some "list" →
  r_values rule = Some values →
  strip value ≠ "" →
  let v := strip value in
  let r := validate_field header (Some value) row_num in
  (v ∈ values → r = Ok None) ∧
  (¬ yes_no values → (r = Ok None ↔ v ∈ values)) ∧
  (yes_no values → (r = Ok None ↔ lower v ∈ ["yes"; "no"])) ∧
  (r ≠ Ok None →
     r = Ok (Some {| row := row_num; column := header; value := v;
                     error := must_be_one_of values;
                     severity := SevError |})).
Proof.
  intros Hrule Hty Hvalues Hne. cbv zeta.
  enter_rule Hrule Hty Hne. rewrite Hvalues. simpl.
  destruct (mem (strip value) values) eqn:Hmem; simpl.
  { apply mem_spec in Hmem. split_and!; try done.
    intros Hyn. split; [intros _|done].
    pose proof (lower_elem_of _ _ Hmem) as Hlo.
    destruct Hyn as [->| ->]; vm_compute (map lower _) in Hlo;
      set_solver. }
  apply mem_false in Hmem.
  destruct (_ && _ && _) eqn:Htest.
  - apply yes_no_test in Htest.
    assert (map lower values = ["yes"; "no"] ∨
            map lower values = ["no"; "yes"]) as Hlow
      by (destruct Htest as [->| ->]; [by left|by right]).
    destruct (mem (lower (strip value)) (map lower values)) eqn:Hlo; simpl.
    + apply mem_spec in Hlo. split_and!; try done.
      intros _. split; [intros _|done].
      destruct Hlow as [Hl|Hl]; rewrite Hl in Hlo; set_solver.
    + apply mem_false in Hlo. split_and!; try done.
      intros _. split; [done|]. intros H. destruct Hlo.
      destruct Hlow as [Hl|Hl]; rewrite Hl; set_solver.
  - apply not_true_iff_false in Htest. rewrite yes_no_test in Htest.
    split_and!; try done.
Qed.

Lemma number_rule_outcome header rule value row_num :
  validations self !! header = Some rule →
  r_type rule = Some "number" →
  strip value ≠ "" →
  let v := strip value in
  let r := validate_field header (Some value) row_num in
  let finding (msg : string) : result (option Finding) :=
    Ok (Some {| row := row_num; column := header; value := v;
                error := msg; severity := SevError |}) in
  (float v = None → r = finding "Must be a number") ∧
  (∀ x lo, float v = Some x → r_min rule = Some lo →
           num_lt x lo = true →
           r = finding ("Value must be >= " +:+ num_str lo)) ∧
  (∀ x hi, float v = Some x →
           (∀ lo, r_min rule = Some lo → num_lt x lo = false) →
           r_max rule = Some hi → num_gt x hi = true →
           r = finding ("Value must be <= " +:+ num_str hi)) ∧
  (∀ x, float v = Some x →
        (∀ lo, r_min rule = Some lo → num_lt x lo = false) →
        (∀ hi, r_max rule = Some hi → num_gt x hi = false) →
        r = Ok None).
Proof.
  intros Hrule Hty Hne. cbv zeta. enter_rule Hrule Hty Hne.
  split_and!.
  - by intros ->.
  - intros x lo -> -> Hlt. by rewrite Hlt.
  - intros x hi -> Hmin -> Hgt.
    destruct (r_min rule) as [lo|]; [rewrite (Hmin lo eq_refl)|];
      by rewrite Hgt.
  - intros x -> Hmin Hmax.
    destruct (r_min rule) as [lo|]; [rewrite (Hmin lo eq_refl)|];
      (destruct (r_max rule) as [hi|]; [rewrite (Hmax hi eq_refl)|]);
      done.
Qed.

Lemma date_rule_outcome header rule value row_num :
  validations self !! header = Some rule →
  r_type rule = Some "date" →
  strip value ≠ "" →
  let v := strip value in
  let r := validate_field header (Some value) row_num in
  (r = Ok None ↔ Re.matches date_re v = true) ∧
  (r = Ok None ↔ date_shape v) ∧
  (¬ date_shape v →
     r = Ok (Some {| row := row_num; column := header; value := v;
                     error := "Invalid date format. Expected " +:+
                              default "MM/DD/YYYY" (r_format rule);
                     severity := SevError |})).
Proof.
  intros Hrule Hty Hne. cbv zeta. enter_rule Hrule Hty Hne.
  rewrite <- (DateFacts.date_re_shape (strip value))
    by apply strip_no_final_newline.
  destruct (Re.matches date_re (strip value)); simpl;
    split_and!; try done.
Qed.



End WithPrimitives.
End FieldFacts.

(** ** The run over the rows *)

Module RunFacts.
Import PyStr Validator Shapes StrFacts SubjectFacts.

Lemma take_take_app {A} (n : nat) (l l' : list A) :
  take n (take n l ++ l') = take n (l ++ l').
Proof.
  destruct (decide (length l ≤ n)) as [Hle|Hgt].
  - by rewrite (take_ge l n).
  - rewrite !take_app_le by (rewrite ?length_take; lia).
    by rewrite take_take, Nat.min_id.
Qed.

Lemma count_type_app ty l l' :
  count_type ty (l ++ l') = count_type ty l + count_type ty l'.
Proof. unfold count_type. by rewrite filter_app, length_app. Qed.

Lemma count_type_total l :
  count_type unknown l + count_type name l + count_type invalid l
  = length l.
Proof.
  unfold count_type. induction l as [|f l IH]; [done|].
  rewrite !filter_cons. destruct (sid_type f); simpl.
  all: repeat case_decide; try done; simpl; lia.
Qed.

(** One finding raises exactly one counter, by one. *)
Lemma count_subject_one ty sv :
  let sv' := count_subject ty sv in
  unknown_count sv' =
    unknown_count sv + (if decide (ty = unknown) then 1 else 0) ∧
  name_count sv' = name_count sv + (if decide (ty = name) then 1 else 0) ∧
  invalid_count sv' =
    invalid_count sv + (if decide (ty = invalid) then 1 else 0) ∧
  examples sv' = examples sv.
Proof. destruct ty; simpl; split_and!; lia || done. Qed.

Section WithPrimitives.
Context {number : Type}.
Variable float : string → option number.
Variable num_lt num_gt : number → number → bool.
Variable num_str : number → string.
Variable re_compile : string → option Re.regex.
Variable path_name : string → string.
Variable self : @WADEPSValidator number.

Local Abbreviation validate_field :=
  (_validate_field float num_lt num_gt num_str re_compile self).
Local Abbreviation field_step :=
  (field_step float num_lt num_gt num_str re_compile self).
Local Abbreviation row_step :=
  (row_step float num_lt num_gt num_str re_compile self).
Local Abbreviation process_rows :=
  (process_rows float num_lt num_gt num_str re_compile self).
Local Abbreviation validate_csv :=
  (validate_csv float num_lt num_gt num_str re_compile path_name self).

(** *** What the field loop leaves alone *)

Lemma record_finding_keeps f res :
  let res' := record_finding f res in
  file res' = file res ∧ timestamp res' = timestamp res ∧
  header_validation res' = header_validation res ∧
  subject_id_validation res' = subject_id_validation res ∧
  total_rows (data_validation res') = total_rows (data_validation res).
Proof. unfold record_finding. by destruct (severity f). Qed.

Lemma field_step_keeps row_num row res header res' :
  field_step row_num row res header = Ok res' →
  subject_id_validation res' = subject_id_validation res ∧
  total_rows (data_validation res') = total_rows (data_validation res).
Proof.
  unfold Validator.field_step. case_bool_decide; [|by intros [= <-]].
  destruct (validate_field _ _ _) as [[f|]|e]; simpl; [| |done].
  - intros [= <-]. split; apply record_finding_keeps.
  - by intros [= <-].
Qed.

Lemma fields_keep row_num row csv_headers : ∀ res res',
  foldM (field_step row_num row) res csv_headers = Ok res' →
  subject_id_validation res' = subject_id_validation res ∧
  total_rows (data_validation res') = total_rows (data_validation res).
Proof.
  induction csv_headers as [|h hs IH]; intros res res'; simpl.
  - by intros [= <-].
  - destruct (field_step row_num row res h) as [res1|e] eqn:Hstep;
      simpl; [|done].
    intros H. apply IH in H as [-> ->].
    by apply field_step_keeps in Hstep.
Qed.

Lemma subject_step_total_rows row_num row res :
  total_rows (data_validation (subject_step row_num row res))
  = total_rows (data_validation res).
Proof.
  unfold subject_step. destruct (row !! "subject_id"); [|done].
  by destruct (_validate_subject_id _ _).
Qed.

(** *** The row counter *)

Lemma row_step_total_rows csv_headers row_num row res res' :
  row_step csv_headers row_num row res = Ok res' →
  total_rows (data_validation res')
  = total_rows (data_validation res) + 1.
Proof.
  unfold Validator.row_step.
  destruct (foldM _ _ _) as [res1|e] eqn:Hfields; simpl; [|done].
  intros [= <-]. rewrite subject_step_total_rows.
  by apply fields_keep in Hfields as [_ ->].
Qed.

Lemma process_rows_total_rows csv_headers rows : ∀ row_num res res',
  process_rows csv_headers row_num rows res = Ok res' →
  total_rows (data_validation res')
  = total_rows (data_validation res) + length rows.
Proof.
  induction rows as [|row rows IH]; intros row_num res res'; simpl.
  - intros [= <-]. lia.
  - destruct (row_step _ _ _ _) as [res1|e] eqn:Hrow; simpl; [|done].
    intros H. apply IH in H as ->.
    apply row_step_total_rows in Hrow as ->. lia.
Qed.

(** *** A well-formed template raises nothing *)

Lemma validate_field_returns header value row_num :
  schema_ok re_compile self →
  ∃ o, validate_field header value row_num = Ok o.
Proof.
  intros Hok. unfold _validate_field.
  destruct (falsy value || _); [by eexists|].
  destruct (validations self !! header) as [rule|] eqn:Hrule;
    [|by eexists].
  destruct (Hok _ _ Hrule) as [->|(ty & Hty & Hlist & Hpat)];
    [by eexists|].
  rewrite (FieldFacts.typed_rule_not_empty _ _ Hty), Hty. simpl.
  repeat case_bool_decide.
  - destruct (Hlist ltac:(done)) as [values ->]. simpl.
    repeat (match goal with |- context [if ?b then _ else _] =>
              destruct b end); by eexists.
  - destruct (negb _); by eexists.
  - destruct (negb _); by eexists.
  - destruct (float _); [|by eexists].
    destruct (r_min rule), (r_max rule);
      repeat (match goal with |- context [if ?b then _ else _] =>
                destruct b end); by eexists.
  - destruct (Hpat ltac:(done)) as (p & Hp & [r Hr]).
    rewrite Hp. simpl. rewrite Hr.
    destruct (negb _); by eexists.
  - by eexists.
Qed.

Lemma field_step_returns row_num row res header :
  schema_ok re_compile self →
  ∃ res', field_step row_num row res header = Ok res'.
Proof.
  intros Hok. unfold Validator.field_step.
  case_bool_decide; [|by eexists].
  destruct (validate_field_returns header
              (default (Some "") (row !! header)) row_num Hok)
    as [o ->].
  simpl. destruct o; by eexists.
Qed.

Lemma fields_return row_num row csv_headers :
  schema_ok re_compile self →
  ∀ res, ∃ res', foldM (field_step row_num row) res csv_headers = Ok res'.
Proof.
  intros Hok. induction csv_headers as [|h hs IH]; intros res; simpl.
  - by eexists.
  - destruct (field_step_returns row_num row res h Hok) as [res1 ->].
    simpl. apply IH.
Qed.

Lemma process_rows_returns csv_headers rows :
  schema_ok re_compile self →
  ∀ row_num res,
    ∃ res', process_rows csv_headers row_num rows res = Ok res'.
Proof.
  intros Hok. induction rows as [|row rows IH]; intros row_num res; simpl.
  - by eexists.
  - unfold Validator.row_step.
    destruct (fields_return row_num row csv_headers Hok (count_row res))
      as [res1 ->].
    simpl. apply IH.
Qed.

(** *** The run passes through the state of every prefix *)

Lemma process_rows_app csv_headers pre post : ∀ row_num res,
  process_rows csv_headers row_num (pre ++ post) res
  = res' ← process_rows csv_headers row_num pre res;
    process_rows csv_headers (row_num + length pre) post res'.
Proof.
  induction pre as [|row pre IH]; intros row_num res; simpl.
  - by rewrite Nat.add_0_r.
  - destruct (row_step _ _ _ _) as [res1|e]; simpl; [|done].
    rewrite IH. by rewrite Nat.add_succ_r.
Qed.

(** *** The subject-id counters and examples *)

Lemma subject_step_subject row_num row res :
  let sv := subject_id_validation res in
  let sv' := subject_id_validation (subject_step row_num row res) in
  let fs := subject_findings row_num [row] in
  length (examples sv) ≤ 5 →
  examples sv' = take 5 (examples sv ++ fs) ∧
  unknown_count sv' = unknown_count sv + count_type unknown fs ∧
  name_count sv' = name_count sv + count_type name fs ∧
  invalid_count sv' = invalid_count sv + count_type invalid fs.
Proof.
  simpl. intros Hlen. unfold subject_step.
  destruct (row !! "subject_id") as [value|]; simpl;
    [|rewrite app_nil_r, take_ge by done; split_and!; lia || done].
  destruct (_validate_subject_id value row_num) as [f|]; simpl;
    [|rewrite app_nil_r, take_ge by done; split_and!; lia || done].
  unfold keep_example, count_type.
  rewrite !filter_cons, !filter_nil.
  destruct (sid_type f); simpl; case_match; simpl.
  all: repeat case_decide; try done; simpl.
  all: rewrite ?Nat.ltb_lt, ?Nat.ltb_ge in H.
  all: split_and!; try lia.
  all: first
    [ by rewrite take_ge by (rewrite length_app; simpl; lia)
    | rewrite take_app_le by lia; by rewrite take_ge by lia ].
Qed.

Lemma row_step_subject csv_headers row_num row res res' :
  row_step csv_headers row_num row res = Ok res' →
  subject_id_validation res'
  = subject_id_validation
      (subject_step row_num row res).
Proof.
  unfold Validator.row_step.
  destruct (foldM _ _ _) as [res1|e] eqn:Hfields; simpl; [|done].
  intros [= <-]. apply fields_keep in Hfields as [Hsv _].
  simpl in Hsv. unfold subject_step.
  destruct (row !! "subject_id"); [|done].
  destruct (_validate_subject_id _ _); [|done].
  simpl. by rewrite Hsv.
Qed.

Lemma process_rows_subject csv_headers rows : ∀ row_num res res',
  process_rows csv_headers row_num rows res = Ok res' →
  let sv := subject_id_validation res in
  let sv' := subject_id_validation res' in
  let fs := subject_findings row_num rows in
  length (examples sv) ≤ 5 →
  examples sv' = take 5 (examples sv ++ fs) ∧
  unknown_count sv' = unknown_count sv + count_type unknown fs ∧
  name_count sv' = name_count sv + count_type name fs ∧
  invalid_count sv' = invalid_count sv + count_type invalid fs.
Proof.
  induction rows as [|row rows IH]; intros row_num res res'.
  - simpl. intros [= <-] Hlen.
    rewrite app_nil_r, take_ge by done. unfold count_type. simpl.
    split_and!; lia || done.
  - cbn [Validator.process_rows].
    destruct (row_step _ _ _ _) as [res1|e] eqn:Hrow; simpl; [|done].
    intros Hrest Hlen.
    apply row_step_subject in Hrow.
    pose proof (subject_step_subject row_num row res Hlen) as Hone.
    simpl in Hone. rewrite <- Hrow in Hone.
    destruct Hone as (Hex & Hu & Hn & Hi).
    rewrite app_nil_r in Hex, Hu, Hn, Hi.
    assert (length (examples (subject_id_validation res1)) ≤ 5) as Hlen1
      by (rewrite Hex, length_take; lia).
    destruct (IH _ _ _ Hrest Hlen1) as (Hex' & Hu' & Hn' & Hi').
    rewrite !count_type_app. rewrite Hex', Hu', Hn', Hi', Hex, Hu, Hn, Hi.
    split_and!; try lia.
    by rewrite take_take_app, <- app_assoc.
Qed.

(** *** The time stamp *)

Lemma field_step_timestamp t row_num row res header :
  field_step row_num row (set_timestamp t res) header
  = set_timestamp t <$> field_step row_num row res header.
Proof.
  unfold Validator.field_step. case_bool_decide; [|done].
  destruct (validate_field _ _ _) as [[f|]|e]; simpl; [|done..].
  unfold record_finding. by destruct (severity f).
Qed.

Lemma fields_timestamp t row_num row csv_headers : ∀ res,
  foldM (field_step row_num row) (set_timestamp t res) csv_headers
  = set_timestamp t <$> foldM (field_step row_num row) res csv_headers.
Proof.
  induction csv_headers as [|h hs IH]; intros res; simpl; [done|].
  rewrite field_step_timestamp.
  destruct (field_step row_num row res h) as [res1|e]; simpl; [|done].
  apply IH.
Qed.

Lemma subject_step_timestamp t row_num row res :
  subject_step row_num row (set_timestamp t res)
  = set_timestamp t (subject_step row_num row res).
Proof.
  unfold subject_step. destruct (row !! "subject_id"); [|done].
  by destruct (_validate_subject_id _ _).
Qed.

Lemma process_rows_timestamp t csv_headers rows : ∀ row_num res,
  process_rows csv_headers row_num rows (set_timestamp t res)
  = set_timestamp t <$> process_rows csv_headers row_num rows res.
Proof.
  induction rows as [|row rows IH]; intros row_num res; simpl; [done|].
  unfold Validator.row_step.
  change (count_row (set_timestamp t res))
    with (set_timestamp t (count_row res)).
  rewrite fields_timestamp.
  destruct (foldM _ (count_row res) _) as [res1|e]; simpl; [|done].
  rewrite subject_step_timestamp. apply IH.
Qed.

End WithPrimitives.
End RunFacts.

(** ** The claims *)

Module Claims.
Import PyStr Validator Shapes StrFacts SubjectFacts.

(** *** The report and the clock *)

(** C1, as the code has it. The report holds the reading of the clock
    taken when the run starts, so two runs on the same template, header
    line and rows give reports that differ in their time stamp and in
    nothing else: the report at one reading is the report at any other
    reading with the time stamp replaced.  In particular the outcome,
    a report or an exception, does not depend on the clock. *)
Theorem report_fixed_up_to_timestamp {number : Type}
    (float : string → option number)
    (num_lt num_gt : number → number → bool)
    (num_str : number → string)
    (re_compile : string → option Re.regex)
    (path_name : string → string)
    (self : @WADEPSValidator number)
    (now1 now2 csv_path : string) (csv_headers : list string)
    (rows : list Row) :
  validate_csv float num_lt num_gt num_str re_compile path_name self
    now2 csv_path csv_headers rows
  = set_timestamp now2 <$>
      validate_csv float num_lt num_gt num_str re_compile path_name self
        now1 csv_path csv_headers rows.
Proof.
  unfold validate_csv.
  rewrite <- RunFacts.process_rows_timestamp. reflexivity.
Qed.

(** C1, as stated, fails: the same template, path, header line and rows
    at two readings of the clock give two different reports. *)
Lemma report_carries_the_clock :
  timestamp <$> Sample.validate "2024-05-01T09:00:00" "in.csv"
                  ["subject_id"] [Sample.subject_row "JD"]
  = Ok "2024-05-01T09:00:00" ∧
  timestamp <$> Sample.validate "2024-05-01T09:00:01" "in.csv"
                  ["subject_id"] [Sample.subject_row "JD"]
  = Ok "2024-05-01T09:00:01" ∧
  Sample.validate "2024-05-01T09:00:00" "in.csv"
    ["subject_id"] [Sample.subject_row "JD"]
  ≠ Sample.validate "2024-05-01T09:00:01" "in.csv"
      ["subject_id"] [Sample.subject_row "JD"].
Proof.
  split_and!; [by vm_compute..|].
  intros H. apply (f_equal (fmap timestamp)) in H.
  vm_compute in H. discriminate H.
Qed.

(** *** The subject-id check *)

(** C3, as the code has it. A value that is not empty once trimmed is
    classified by the first test that holds: unknown when it is unknown or
    unk in any case; else a full name when it contains a space character,
    splits at white space into two or more parts and has a part longer
    than three characters; else an invalid format when it matches neither
    of the two patterns for initials; else there is no finding.  So
    unknown and UNK are unknown, John Doe is a full name, JD, J.D., J.D.S
    and J give no finding, and 123 is an invalid format. *)
Theorem subject_id_priority :
  (∀ (value : string) (row_num : nat),
     strip value ≠ "" →
     let val := strip value in
     let r := _validate_subject_id (Some value) row_num in
     (says_unknown val → sid_type <$> r = Some unknown) ∧
     (¬ says_unknown val → looks_like_name val →
        sid_type <$> r = Some name) ∧
     (¬ says_unknown val → ¬ looks_like_name val → ¬ is_initials val →
        sid_type <$> r = Some invalid) ∧
     (¬ says_unknown val → ¬ looks_like_name val → is_initials val →
        r = None) ∧
     (∀ f, r = Some f → sid_row f = row_num ∧ sid_value f = val)) ∧
  (∀ row_num,
     sid_type <$> _validate_subject_id (Some "unknown") row_num
       = Some unknown ∧
     sid_type <$> _validate_subject_id (Some "UNK") row_num
       = Some unknown ∧
     sid_type <$> _validate_subject_id (Some "John Doe") row_num
       = Some name ∧
     _validate_subject_id (Some "JD") row_num = None ∧
     _validate_subject_id (Some "J.D.") row_num = None ∧
     _validate_subject_id (Some "J.D.S") row_num = None ∧
     _validate_subject_id (Some "J") row_num = None ∧
     sid_type <$> _validate_subject_id (Some "123") row_num
       = Some invalid).
Proof.
  split.
  - apply SubjectClaims.subject_id_cases.
  - intros row_num. split_and!; by vm_compute.
Qed.

Lemma subject_id_priority_witness :
  sid_type <$> _validate_subject_id (Some " John Doe ") 7 = Some name.
Proof.
  assert (strip " John Doe " ≠ "") as Hne by (by vm_compute).
  destruct (proj1 subject_id_priority " John Doe " 7 Hne) as (_ & H & _).
  apply H.
  - apply mem_false. by vm_compute.
  - apply looks_like_name_spec. by vm_compute.
Defined.

(** C3, as stated, fails: John and Doe with a TAB between them contain
    white space and split into two parts, one of four characters, yet the
    value is classified as an invalid format, not as a full name. *)
Lemma subject_id_tab_is_invalid :
  strip Sample.john_tab_doe = Sample.john_tab_doe ∧
  existsb isspace (chars Sample.john_tab_doe) = true ∧
  split Sample.john_tab_doe = ["John"; "Doe"] ∧
  len "John" = 4 ∧
  mem (lower Sample.john_tab_doe) ["unknown"; "unk"] = false ∧
  contains " " Sample.john_tab_doe = false ∧
  sid_type <$> _validate_subject_id (Some Sample.john_tab_doe) 2
    = Some invalid.
Proof. split_and!; by vm_compute. Qed.

(** *** The field check *)

Lemma yes_no_set (values : list string) :
  NoDup values →
  yes_no values ↔ list_to_set values = ({["Yes"; "No"]} : gset string).
Proof.
  intros Hnd. split.
  - intros [->| ->]; set_solver.
  - intros Hset. apply FieldFacts.yes_no_test.
    rewrite !andb_true_iff, Nat.eqb_eq, !mem_spec. split_and!.
    + rewrite <- (size_list_to_set (C := gset string)) by done.
      rewrite Hset, size_union by set_solver.
      by rewrite !size_singleton.
    + apply (elem_of_list_to_set (C := gset string)). set_solver.
    + apply (elem_of_list_to_set (C := gset string)). set_solver.
Qed.

Lemma date_examples :
  date_shape "02/30/2024" ∧ ¬ date_shape "13/01/2024" ∧
  ¬ date_shape "1/2/2024".
Proof.
  unfold date_shape, chars. split_and!.
  - cbn. split_and!; try done.
    + repeat constructor.
    + vm_compute. lia.
    + vm_compute. lia.
    + vm_compute. lia.
    + vm_compute. lia.
  - cbn. intros (_ & _ & _ & H & _). vm_compute in H. lia.
  - cbn. tauto.
Qed.

Section WithPrimitives.
Context {number : Type}.
Variable float : string → option number.
Variable num_lt num_gt : number → number → bool.
Variable num_str : number → string.
Variable re_compile : string → option Re.regex.
Variable path_name : string → string.
Variable self : @WADEPSValidator number.

Local Abbreviation validate_field :=
  (_validate_field float num_lt num_gt num_str re_compile self).
Local Abbreviation process_rows :=
  (process_rows float num_lt num_gt num_str re_compile self).
Local Abbreviation validate_csv :=
  (validate_csv float num_lt num_gt num_str re_compile path_name self).

(** C5. Under a list rule the trimmed value is looked up among the allowed
    values as it is written, so a value equal to an allowed one never
    gives a finding; only when the allowed values are exactly Yes and No,
    in either order, is it looked up without regard to case, so that yes,
    YES and No followed by a space pass.  For allowed values without
    repeats, being exactly Yes and No is being the set of the two. *)
Theorem list_rule_membership header rule values value row_num :
  validations self !! header = Some rule →
  r_type rule = Some "list" →
  r_values rule = Some values →
  strip value ≠ "" →
  let v := strip value in
  let r := validate_field header (Some value) row_num in
  (v ∈ values → r = Ok None) ∧
  (¬ yes_no values → (r = Ok None ↔ v ∈ values)) ∧
  (yes_no values → (r = Ok None ↔ lower v ∈ ["yes"; "no"])) ∧
  (NoDup values →
     (yes_no values ↔
      list_to_set values = ({["Yes"; "No"]} : gset string))) ∧
  (r ≠ Ok None →
     r = Ok (Some {| row := row_num; column := header; value := v;
                     error := must_be_one_of values;
                     severity := SevError |})) ∧
  lower (strip "yes") = "yes" ∧ lower (strip "YES") = "yes" ∧
  lower (strip "No ") = "no".
Proof.
  intros Hrule Hty Hvalues Hne.
  destruct (FieldFacts.list_rule_outcome float num_lt num_gt num_str
              re_compile self header rule values value row_num
              Hrule Hty Hvalues Hne) as (H1 & H2 & H3 & H4).
  split_and!; try done. apply yes_no_set.
Qed.

(** C6. Under a number rule a trimmed value that is not empty gives: when
    it does not parse, the one finding Must be a number, whatever the
    bounds; when it parses and lies below a minimum that is set, the
    finding Value must be >= min; otherwise, when it lies above a maximum
    that is set, the finding Value must be <= max; otherwise no finding.
    The minimum is checked first and at most one finding comes out. *)
Theorem number_rule_checks header rule value row_num :
  validations self !! header = Some rule →
  r_type rule = Some "number" →
  strip value ≠ "" →
  let v := strip value in
  let r := validate_field header (Some value) row_num in
  let finding (msg : string) : result (option Finding) :=
    Ok (Some {| row := row_num; column := header; value := v;
                error := msg; severity := SevError |}) in
  (float v = None → r = finding "Must be a number") ∧
  (∀ x lo, float v = Some x → r_min rule = Some lo →
           num_lt x lo = true →
           r = finding ("Value must be >= " +:+ num_str lo)) ∧
  (∀ x hi, float v = Some x →
           (∀ lo, r_min rule = Some lo → num_lt x lo = false) →
           r_max rule = Some hi → num_gt x hi = true →
           r = finding ("Value must be <= " +:+ num_str hi)) ∧
  (∀ x, float v = Some x →
        (∀ lo, r_min rule = Some lo → num_lt x lo = false) →
        (∀ hi, r_max rule = Some hi → num_gt x hi = false) →
        r = Ok None).
Proof. apply FieldFacts.number_rule_outcome. Qed.

(** C7. Under a date rule a trimmed value that is not empty gives no
    finding exactly when the date pattern matches it, which is exactly
    when it has the shape MM/DD/YYYY with a month from 01 to 12, a day
    from 01 to 31 and a year of four digits; any other value gives an
    error finding that names the expected format.  So 02/30/2024 has the
    shape, and 13/01/2024 and 1/2/2024 do not. *)
Theorem date_rule_shape :
  (∀ header rule value row_num,
     validations self !! header = Some rule →
     r_type rule = Some "date" →
     strip value ≠ "" →
     let v := strip value in
     let r := validate_field header (Some value) row_num in
     (r = Ok None ↔ Re.matches date_re v = true) ∧
     (r = Ok None ↔ date_shape v) ∧
     (¬ date_shape v →
        r = Ok (Some {| row := row_num; column := header; value := v;
                        error := "Invalid date format. Expected " +:+
                                 default "MM/DD/YYYY" (r_format rule);
                        severity := SevError |}))) ∧
  date_shape "02/30/2024" ∧ ¬ date_shape "13/01/2024" ∧
  ¬ date_shape "1/2/2024".
Proof.
  split; [|apply date_examples].
  intros header rule value row_num. apply FieldFacts.date_rule_outcome.
Qed.


(** C10. A rule whose type is none of list, date, time, number and pattern
    lets every value pass: the field check returns no finding and raises
    nothing. *)
Theorem unknown_rule_type_ignored header rule ty value row_num :
  validations self !! header = Some rule →
  r_type rule = Some ty →
  ty ∉ ["list"; "date"; "time"; "number"; "pattern"] →
  validate_field header value row_num = Ok None.
Proof. apply FieldFacts.unknown_type_passes. Qed.

(** *** The run *)

(** C9. With a template whose rules have the keys they need, every run
    returns a report, and its total_rows is the number of rows: each row
    counts once, whatever it gives rise to. *)
Theorem total_rows_counts_records now csv_path csv_headers rows :
  schema_ok re_compile self →
  ∃ res,
    validate_csv now csv_path csv_headers rows = Ok res ∧
    total_rows (data_validation res) = length rows.
Proof.
  intros Hok. unfold Validator.validate_csv.
  edestruct (RunFacts.process_rows_returns float num_lt num_gt num_str
               re_compile self csv_headers rows Hok) as [res Hres].
  exists res. split; [exact Hres|].
  by apply RunFacts.process_rows_total_rows in Hres as ->.
Qed.

(** C4. At every point of a run, after any number of rows, the examples
    of the subject-id part are the first five findings so far, hence never
    more than five, while each of the three counters is the number of
    findings of its type among all findings so far, those past the fifth
    included; so the counters add up to the number of findings. *)
Theorem examples_capped_counts_complete now csv_path csv_headers
    pre post final :
  validate_csv now csv_path csv_headers (pre ++ post) = Ok final →
  ∃ mid,
    validate_csv now csv_path csv_headers pre = Ok mid ∧
    process_rows csv_headers (2 + length pre) post mid = Ok final ∧
    let sv := subject_id_validation mid in
    let fs := subject_findings 2 pre in
    length (examples sv) ≤ 5 ∧
    examples sv = take 5 fs ∧
    unknown_count sv = count_type unknown fs ∧
    name_count sv = count_type name fs ∧
    invalid_count sv = count_type invalid fs ∧
    unknown_count sv + name_count sv + invalid_count sv = length fs.
Proof.
  unfold Validator.validate_csv. rewrite RunFacts.process_rows_app.
  destruct (process_rows csv_headers 2 pre _) as [mid|e] eqn:Hmid;
    simpl; [|done].
  intros Hfinal. exists mid. split; [done|]. split; [done|].
  apply RunFacts.process_rows_subject in Hmid; [|simpl; lia].
  simpl in Hmid. destruct Hmid as (Hex & Hu & Hn & Hi).
  rewrite Hex, Hu, Hn, Hi. split_and!; try done.
  - rewrite length_take. lia.
  - apply RunFacts.count_type_total.
Qed.

End WithPrimitives.

(** *** The claims at the sample template *)

Lemma template_ok : schema_ok Sample.re_compile Sample.template.
Proof.
  intros header rule H. apply elem_of_list_to_map_2 in H.
  repeat (apply elem_of_cons in H as [H|H]; [injection H as -> ->|]).
  8: by apply elem_of_nil in H.
  all: right; eexists; split; [reflexivity|].
  all: split; [intros [=]; by eauto|intros [=]].
  eexists. split; [reflexivity|]. vm_compute. by eauto.
Qed.

Lemma list_rule_membership_witness :
  Sample.validate_field "armed" (Some "No ") 3 = Ok None.
Proof.
  assert (strip "No " ≠ "") as Hne by (by vm_compute).
  destruct (list_rule_membership Sample.float Sample.num_lt Sample.num_gt
              Sample.num_str Sample.re_compile Sample.template
              "armed" (Sample.list_rule ["Yes"; "No"]) ["Yes"; "No"] "No " 3
              ltac:(by vm_compute) eq_refl eq_refl Hne)
    as (_ & _ & H & _).
  apply H.
  - by left.
  - apply mem_spec. by vm_compute.
Defined.

Lemma number_rule_checks_witness :
  Sample.validate_field "age" (Some "5") 4
  = Ok (Some {| row := 4; column := "age"; value := "5";
                error := "Value must be >= 10"; severity := SevError |}).
Proof.
  assert (strip "5" ≠ "") as Hne by (by vm_compute).
  destruct (number_rule_checks Sample.float Sample.num_lt Sample.num_gt
              Sample.num_str Sample.re_compile Sample.template
              "age" (Sample.number_rule (Some 10%Z) (Some 120%Z)) "5" 4
              ltac:(by vm_compute) eq_refl Hne)
    as (_ & H & _).
  apply (H 5%Z 10%Z); by vm_compute.
Defined.

Lemma date_rule_shape_witness :
  Sample.validate_field "event_date" (Some "02/30/2024") 2 = Ok None.
Proof.
  assert (strip "02/30/2024" ≠ "") as Hne by (by vm_compute).
  destruct (date_rule_shape Sample.float Sample.num_lt Sample.num_gt
              Sample.num_str Sample.re_compile Sample.template)
    as (H & Hshape & _).
  destruct (H "event_date" (Sample.rule "date") "02/30/2024" 2
              ltac:(by vm_compute) eq_refl Hne) as (_ & H2 & _).
  apply H2. exact Hshape.
Defined.



Lemma unknown_rule_type_ignored_witness :
  Sample.validate_field "notes" (Some "seen at 9") 6 = Ok None.
Proof.
  apply (unknown_rule_type_ignored Sample.float Sample.num_lt Sample.num_gt
           Sample.num_str Sample.re_compile Sample.template
           "notes" (Sample.rule "text") "text").
  - by vm_compute.
  - reflexivity.
  - apply mem_false. by vm_compute.
Defined.

Lemma total_rows_counts_records_witness :
  ∃ res,
    Sample.validate "2024-05-01T09:00:00" "in.csv"
      ["subject_id"; "event_date"; "notes"] [Sample.scenario_row] = Ok res ∧
    total_rows (data_validation res) = 1.
Proof.
  apply (total_rows_counts_records Sample.float Sample.num_lt Sample.num_gt
           Sample.num_str Sample.re_compile Sample.path_name Sample.template
           "2024-05-01T09:00:00" "in.csv"
           ["subject_id"; "event_date"; "notes"] [Sample.scenario_row]).
  apply template_ok.
Defined.

Lemma examples_capped_counts_complete_witness :
  ∃ mid,
    Sample.validate "2024-05-01T09:00:00" "in.csv" ["subject_id"]
      Sample.eight_rows = Ok mid ∧
    length (examples (subject_id_validation mid)) ≤ 5 ∧
    unknown_count (subject_id_validation mid) = 3 ∧
    name_count (subject_id_validation mid) = 2 ∧
    invalid_count (subject_id_validation mid) = 2.
Proof.
  edestruct (examples_capped_counts_complete Sample.float Sample.num_lt
              Sample.num_gt Sample.num_str Sample.re_compile
              Sample.path_name Sample.template
              "2024-05-01T09:00:00" "in.csv" ["subject_id"]
              Sample.eight_rows [])
    as (mid & Hmid & _ & Hlen & _ & Hu & Hn & Hi & _).
  { rewrite app_nil_r. vm_compute. reflexivity. }
  exists mid. split_and!; [exact Hmid|exact Hlen|..].
  - rewrite Hu. by vm_compute.
  - rewrite Hn. by vm_compute.
  - rewrite Hi. by vm_compute.
Defined.

(** The end-to-end scenario: one record with a full name and a date out
    of range, under a header line with one column more than expected. *)
Example end_to_end_scenario :
  ∃ res f sf,
    Sample.validate "2024-05-01T09:00:00" "data/in.csv"
      ["subject_id"; "event_date"; "notes"] [Sample.scenario_row] = Ok res ∧
    file res = "in.csv" ∧
    matching (header_validation res) = {["subject_id"; "event_date"]} ∧
    missing (header_validation res) = ∅ ∧
    extra (header_validation res) = {["notes"]} ∧
    is_valid (header_validation res) = true ∧
    errors (data_validation res) = [f] ∧
    column f = "event_date" ∧
    error f = "Invalid date format. Expected MM/DD/YYYY" ∧
    warnings (data_validation res) = [] ∧
    total_rows (data_validation res) = 1 ∧
    examples (subject_id_validation res) = [sf] ∧
    sid_type sf = name ∧
    name_count (subject_id_validation res) = 1.
Proof.
  eexists _, _, _. split; [by vm_compute|].
  split_and!; by vm_compute.
Qed.

(** A list rule other than Yes and No is read with regard to case. *)
Example list_rule_is_case_sensitive :
  Sample.validate_field "sex" (Some "Male") 2 = Ok None ∧
  Sample.validate_field "sex" (Some "male") 2
  = Ok (Some {| row := 2; column := "sex"; value := "male";
                error := "Must be one of: Male, Female";
                severity := SevError |}).
Proof. split; by vm_compute. Qed.

Example yes_no_any_case :
  Sample.validate_field "armed" (Some "yes") 2 = Ok None ∧
  Sample.validate_field "armed" (Some "YES") 2 = Ok None ∧
  Sample.validate_field "armed" (Some "No ") 2 = Ok None.
Proof. split_and!; by vm_compute. Qed.

Example date_rule_examples :
  Sample.validate_field "event_date" (Some "02/30/2024") 2 = Ok None ∧
  Sample.validate_field "event_date" (Some "13/01/2024") 2
  = Ok (Some {| row := 2; column := "event_date"; value := "13/01/2024";
                error := "Invalid date format. Expected MM/DD/YYYY";
                severity := SevError |}) ∧
  Sample.validate_field "event_date" (Some "1/2/2024") 2
  = Ok (Some {| row := 2; column := "event_date"; value := "1/2/2024";
                error := "Invalid date format. Expected MM/DD/YYYY";
                severity := SevError |}).
Proof. split_and!; by vm_compute. Qed.

Example time_rule_examples :
  Sample.validate_field "event_time" (Some "08:21") 2 = Ok None ∧
  Sample.validate_field "event_time" (Some "25:00") 2 = Ok None ∧
  Sample.validate_field "event_time" (Some "8:21") 2
  = Ok (Some {| row := 2; column := "event_time"; value := "8:21";
                error := "Invalid time format. Expected HH:MM";
                severity := SevError |}).
Proof. split_and!; by vm_compute. Qed.

Example number_rule_examples :
  Sample.validate_field "age" (Some "abc") 2
  = Ok (Some {| row := 2; column := "age"; value := "abc";
                error := "Must be a number"; severity := SevError |}) ∧
  Sample.validate_field "age" (Some "500") 2
  = Ok (Some {| row := 2; column := "age"; value := "500";
                error := "Value must be <= 120"; severity := SevError |}) ∧
  Sample.validate_field "age" (Some "") 2 = Ok None.
Proof. split_and!; by vm_compute. Qed.

(** The pattern WA matches at the start only; what follows is free. *)
Example pattern_rule_examples :
  Sample.validate_field "agency" (Some "wa and more") 2 = Ok None ∧
  Sample.validate_field "agency" (Some "xwa") 2
  = Ok (Some {| row := 2; column := "agency"; value := "xwa";
                error := "Must match pattern: WA"; severity := SevError |}).
Proof. split_and!; by vm_compute. Qed.

End Claims.

(** ** More facts about the string methods *)

Module StrMore.
Import PyStr Validator Shapes Reports Cases StrFacts.

Lemma lstrip_chars_app_nonspace l c t :
  isspace c = false →
  lstrip_chars (l ++ c :: t) = lstrip_chars l ++ c :: t.
Proof.
  intros Hc. induction l as [|a l IH]; simpl.
  - by rewrite Hc.
  - destruct (isspace a); [done|]. done.
Qed.

Lemma lstrip_chars_idemp l : lstrip_chars (lstrip_chars l) = lstrip_chars l.
Proof.
  induction l as [|a l IH]; simpl; [done|].
  destruct (isspace a) eqn:Ha; [done|]. simpl. by rewrite Ha.
Qed.

Lemma rstrip_chars_idemp l : rstrip_chars (rstrip_chars l) = rstrip_chars l.
Proof.
  unfold rstrip_chars. by rewrite rev_involutive, lstrip_chars_idemp.
Qed.

Lemma rstrip_chars_cons_nonspace c l :
  isspace c = false → rstrip_chars (c :: l) = c :: rstrip_chars l.
Proof.
  intros Hc. unfold rstrip_chars. simpl.
  rewrite lstrip_chars_app_nonspace by done.
  by rewrite rev_app_distr.
Qed.

Lemma strip_chars_idemp l : strip_chars (strip_chars l) = strip_chars l.
Proof.
  unfold strip_chars.
  destruct (lstrip_chars l) as [|c x] eqn:Hx; [done|].
  pose proof (lstrip_chars_head _ _ _ Hx) as Hc.
  rewrite rstrip_chars_cons_nonspace by done. simpl. rewrite Hc.
  rewrite rstrip_chars_cons_nonspace by done.
  by rewrite rstrip_chars_idemp.
Qed.

(** Trimming a trimmed string changes nothing. *)
Lemma strip_idemp s : strip (strip s) = strip s.
Proof. unfold strip. by rewrite chars_str, strip_chars_idemp. Qed.

Lemma chars_app s1 s2 : chars (s1 +:+ s2) = chars s1 ++ chars s2.
Proof. induction s1 as [|c s1 IH]; simpl; [done|]. by rewrite <- IH. Qed.

Lemma lower_app s1 s2 : lower (s1 +:+ s2) = lower s1 +:+ lower s2.
Proof.
  apply chars_inj. unfold lower.
  rewrite chars_str, !chars_app, !chars_str. apply map_app.
Qed.

Lemma len_lower s : len (lower s) = len s.
Proof. unfold len, lower. by rewrite chars_str, length_map. Qed.

(** A string occurs in every string that holds it between two others. *)
Lemma occurs_in_middle p a b : occurs_in p (a ++ p ++ b) = true.
Proof.
  induction a as [|c a IH]; simpl.
  - assert (starts_with p (p ++ b) = true) as Hp.
    { induction p as [|x p IHp]; simpl; [done|].
      by rewrite Ascii.eqb_refl, IHp. }
    destruct (p ++ b); simpl in *; by rewrite Hp.
  - rewrite IH. apply orb_true_r.
Qed.

Lemma str_in_middle p a b : str_in p (a +:+ p +:+ b) = true.
Proof. unfold str_in. rewrite !chars_app. apply occurs_in_middle. Qed.

Lemma starts_with_spec p l :
  starts_with p l = true ↔ ∃ b, l = p ++ b.
Proof.
  revert l. induction p as [|x p IH]; intros l; simpl.
  - split; [by eexists|done].
  - destruct l as [|y l]; [split; [done|by intros [? ?]]|].
    rewrite andb_true_iff, Ascii.eqb_eq, IH. split.
    + intros [-> [b ->]]. by eexists.
    + intros [b [= -> ->]]. split; [done|by eexists].
Qed.

(** [p in s] holds exactly when [s] is [p] between two strings. *)
Lemma occurs_in_spec p l :
  occurs_in p l = true ↔ ∃ a b, l = a ++ p ++ b.
Proof.
  split.
  - induction l as [|c l IH]; simpl.
    + rewrite orb_false_r. intros [b ->]%starts_with_spec. by exists [], b.
    + intros [[b Hb]%starts_with_spec|H]%orb_true_iff.
      * exists [], b. by rewrite Hb.
      * destruct (IH H) as (a & b & ->). by exists (c :: a), b.
  - intros (a & b & ->). apply occurs_in_middle.
Qed.

End StrMore.

(** ** More about the run: what a report holds *)

Module RunMore.
Import PyStr Validator Shapes Reports Cases StrFacts SubjectFacts.

Lemma constant_sorted (n : nat) (l : list nat) :
  Forall (λ m, m = n) l → StronglySorted le l.
Proof.
  induction 1 as [|m l -> Hl IH]; constructor; [done|].
  eapply Forall_impl; [exact Hl|]. by intros ? ->.
Qed.

Section WithPrimitives.
Context {number : Type}.
Variable float : string → option number.
Variable num_lt num_gt : number → number → bool.
Variable num_str : number → string.
Variable re_compile : string → option Re.regex.
Variable path_name : string → string.
Variable self : @WADEPSValidator number.

Local Abbreviation validate_field :=
  (_validate_field float num_lt num_gt num_str re_compile self).
Local Abbreviation field_step :=
  (field_step float num_lt num_gt num_str re_compile self).
Local Abbreviation row_step :=
  (row_step float num_lt num_gt num_str re_compile self).
Local Abbreviation process_rows :=
  (process_rows float num_lt num_gt num_str re_compile self).
Local Abbreviation validate_csv :=
  (validate_csv float num_lt num_gt num_str re_compile path_name self).

(** What a finding of the field check carries. *)
Lemma validate_field_finding header value row_num f :
  validate_field header value row_num = Ok (Some f) →
  row f = row_num ∧ column f = header ∧ severity f = SevError ∧
  is_Some (validations self !! header) ∧
  ∃ raw, value = Some raw ∧ Validator.value f = strip raw ∧ strip raw ≠ "".
Proof.
  unfold _validate_field. destruct value as [raw|]; [|done].
  destruct (falsy (Some raw) || _) eqn:Hblank; [done|].
  apply orb_false_iff in Hblank as [_ Hne%bool_decide_eq_false].
  cbn [from_option id] in *.
  destruct (validations self !! header) as [rule|]; [|done].
  destruct (rule_is_empty rule); [done|].
  destruct (r_type rule) as [ty|]; simpl; [|done].
  assert (∀ msg,
    Ok (Some {| row := row_num; column := header; value := strip raw;
                error := msg; severity := SevError |}) = Ok (Some f) →
    row f = row_num ∧ column f = header ∧ severity f = SevError ∧
    is_Some (Some rule) ∧
    ∃ raw0, Some raw = Some raw0 ∧ Validator.value f = strip raw0 ∧
            strip raw0 ≠ "") as Hfinding.
  { intros msg [= <-]. simpl. split_and!; try done. by eexists. }
  repeat case_bool_decide.
  - destruct (r_values rule) as [values|]; simpl; [|done].
    repeat (match goal with |- context [if ?b then _ else _] =>
              destruct b end); try done; apply Hfinding.
  - destruct (negb _); [apply Hfinding|done].
  - destruct (negb _); [apply Hfinding|done].
  - destruct (float _); [|apply Hfinding].
    destruct (r_min rule), (r_max rule);
      repeat (match goal with |- context [if ?b then _ else _] =>
                destruct b end); try done; apply Hfinding.
  - destruct (r_pattern rule) as [p|]; simpl; [|done].
    destruct (re_compile p); [|done].
    destruct (negb _); [apply Hfinding|done].
  - done.
Qed.


Lemma field_step_errors row_num rw res header res' :
  field_step row_num rw res header = Ok res' →
  ∃ new,
    errors (data_validation res') = errors (data_validation res) ++ new ∧
    warnings (data_validation res') = warnings (data_validation res) ∧
    Forall (λ f, row f = row_num ∧ column f = header ∧
                 is_Some (validations self !! header) ∧
                 severity f = SevError ∧
                 ∃ raw, rw !! header = Some (Some raw) ∧
                        value f = strip raw ∧ strip raw ≠ "") new.
Proof.
  unfold Validator.field_step.
  case_bool_decide as Hrule;
    [|intros [= <-]; exists []; by rewrite app_nil_r].
  destruct (validate_field _ _ _) as [[f|]|e] eqn:Hf; simpl; [| |done].
  - intros [= <-].
    apply validate_field_finding in Hf
      as (Hrow & Hcol & Hsev & _ & raw & Hraw & Hval & Hne).
    exists [f]. unfold record_finding. rewrite Hsev. simpl.
    split_and!; try done. constructor; [|done].
    split_and!; try done. exists raw. split_and!; try done.
    destruct (rw !! header) as [v|] eqn:Hget; simpl in Hraw.
    + by rewrite Hraw.
    + injection Hraw as <-. by destruct Hne.
  - intros [= <-]. exists []. by rewrite app_nil_r.
Qed.

Lemma fields_errors row_num rw csv_headers : ∀ res res',
  foldM (field_step row_num rw) res csv_headers = Ok res' →
  ∃ new,
    errors (data_validation res') = errors (data_validation res) ++ new ∧
    warnings (data_validation res') = warnings (data_validation res) ∧
    Forall (λ f, row f = row_num ∧ column f ∈ csv_headers ∧
                 is_Some (validations self !! column f) ∧
                 severity f = SevError ∧
                 ∃ raw, rw !! column f = Some (Some raw) ∧
                        value f = strip raw ∧ strip raw ≠ "") new.
Proof.
  induction csv_headers as [|h hs IH]; intros res res'; simpl.
  - intros [= <-]. exists []. by rewrite app_nil_r.
  - destruct (field_step row_num rw res h) as [res1|e] eqn:Hstep;
      simpl; [|done].
    intros Hrest.
    apply field_step_errors in Hstep as (new1 & He1 & Hw1 & Hall1).
    apply IH in Hrest as (new2 & He2 & Hw2 & Hall2).
    exists (new1 ++ new2). rewrite He2, He1, Hw2, Hw1, app_assoc.
    split_and!; try done. apply Forall_app. split.
    + eapply Forall_impl; [exact Hall1|]. simpl.
      intros f (? & <- & ? & ? & ?). split_and!; try done.
      apply elem_of_cons. by left.
    + eapply Forall_impl; [exact Hall2|]. simpl.
      intros f (? & ? & ? & ? & ?). split_and!; try done.
      apply elem_of_cons. by right.
Qed.

Lemma subject_step_data row_num rw res :
  data_validation (subject_step row_num rw res) = data_validation res.
Proof.
  unfold subject_step. destruct (rw !! "subject_id"); [|done].
  by destruct (_validate_subject_id _ _).
Qed.

Lemma process_rows_errors csv_headers rows : ∀ row_num res res',
  process_rows csv_headers row_num rows res = Ok res' →
  ∃ new,
    errors (data_validation res') = errors (data_validation res) ++ new ∧
    warnings (data_validation res') = warnings (data_validation res) ∧
    Forall (finding_of_rows self csv_headers row_num rows) new ∧
    StronglySorted le (row <$> new).
Proof.
  induction rows as [|r rows IH]; intros row_num res res'.
  - simpl. intros [= <-]. exists []. rewrite app_nil_r.
    split_and!; try done. constructor.
  - cbn [Validator.process_rows]. unfold Validator.row_step.
    destruct (foldM _ (count_row res) csv_headers) as [res1|e] eqn:Hfields;
      simpl; [|done].
    intros Hrest.
    apply fields_errors in Hfields as (new1 & He1 & Hw1 & Hall1).
    apply IH in Hrest as (new2 & He2 & Hw2 & Hall2 & Hsorted).
    rewrite subject_step_data in He2, Hw2. simpl in He1, Hw1.
    exists (new1 ++ new2). rewrite He2, He1, Hw2, Hw1, app_assoc.
    split_and!; try done.
    + apply Forall_app. split.
      * eapply Forall_impl; [exact Hall1|]. simpl.
        intros f (Hrow & ? & ? & ? & raw & ? & ? & ?).
        unfold finding_of_rows. simpl. split_and!; try done; try lia.
        exists r, raw. rewrite Hrow, Nat.sub_diag. done.
      * eapply Forall_impl; [exact Hall2|]. simpl.
        intros f ([??] & ? & ? & ? & r' & raw & Hr' & ? & ? & ?).
        unfold finding_of_rows. simpl. split_and!; try done; try lia.
        exists r', raw. split_and!; try done.
        replace (row f - row_num) with (S (row f - S row_num)) by lia.
        exact Hr'.
    + rewrite fmap_app. apply StronglySorted_app_2; [| |done].
      * intros x1 x2 (f1 & -> & Hf1)%list_elem_of_fmap
                     (f2 & -> & Hf2)%list_elem_of_fmap.
        rewrite Forall_forall in Hall1, Hall2.
        destruct (Hall1 _ Hf1) as (-> & _).
        destruct (Hall2 _ Hf2) as ([? _] & _). lia.
      * clear -Hall1.
        assert (Forall (λ n, n = row_num) (row <$> new1)) as Hrows.
        { apply Forall_fmap. eapply Forall_impl; [exact Hall1|].
          intros f (Hr & _). exact Hr. }
        by apply (constant_sorted row_num).
Qed.


Lemma field_step_head row_num rw res header res' :
  field_step row_num rw res header = Ok res' →
  file res' = file res ∧ timestamp res' = timestamp res ∧
  header_validation res' = header_validation res.
Proof.
  unfold Validator.field_step. case_bool_decide; [|by intros [= <-]].
  destruct (validate_field _ _ _) as [[f|]|e]; simpl; [| |done].
  - intros [= <-]. unfold record_finding. by destruct (severity f).
  - by intros [= <-].
Qed.

Lemma fields_head row_num rw csv_headers : ∀ res res',
  foldM (field_step row_num rw) res csv_headers = Ok res' →
  file res' = file res ∧ timestamp res' = timestamp res ∧
  header_validation res' = header_validation res.
Proof.
  induction csv_headers as [|h hs IH]; intros res res'; simpl.
  - by intros [= <-].
  - destruct (field_step row_num rw res h) as [res1|e] eqn:Hstep;
      simpl; [|done].
    intros (-> & -> & ->)%IH. by apply field_step_head in Hstep.
Qed.

Lemma subject_step_head row_num rw res :
  file (subject_step row_num rw res) = file res ∧
  timestamp (subject_step row_num rw res) = timestamp res ∧
  header_validation (subject_step row_num rw res) = header_validation res.
Proof.
  unfold subject_step. destruct (rw !! "subject_id"); [|done].
  by destruct (_validate_subject_id _ _).
Qed.

Lemma process_rows_head csv_headers rows : ∀ row_num res res',
  process_rows csv_headers row_num rows res = Ok res' →
  file res' = file res ∧ timestamp res' = timestamp res ∧
  header_validation res' = header_validation res.
Proof.
  induction rows as [|r rows IH]; intros row_num res res'.
  - simpl. by intros [= <-].
  - cbn [Validator.process_rows]. unfold Validator.row_step.
    destruct (foldM _ (count_row res) csv_headers) as [res1|e] eqn:Hfields;
      simpl; [|done].
    intros (-> & -> & ->)%IH.
    destruct (subject_step_head row_num r res1) as (-> & -> & ->).
    by apply fields_head in Hfields.
Qed.

(** A field that raises makes the loop over the header line raise. *)
Lemma fields_raise row_num rw csv_headers header e :
  header ∈ csv_headers →
  validate_field header (row_get rw header) row_num = Raise e →
  ∀ res, ∃ e', foldM (field_step row_num rw) res csv_headers = Raise e'.
Proof.
  intros Hin Hraise. induction csv_headers as [|h hs IH]; intros res.
  { by apply elem_of_nil in Hin. }
  simpl. destruct (field_step row_num rw res h) as [res1|e1] eqn:Hstep;
    simpl; [|by eexists].
  apply elem_of_cons in Hin as [->|Hin]; [|by apply IH].
  exfalso. revert Hstep. unfold Validator.field_step.
  case_bool_decide as Hrule.
  - unfold row_get in Hraise. by rewrite Hraise.
  - revert Hraise. unfold _validate_field.
    destruct (falsy _ || _); [done|].
    destruct (validations self !! h); [|done].
    destruct Hrule. by eexists.
Qed.

Lemma process_rows_raise csv_headers pre r post header e : ∀ row_num res,
  header ∈ csv_headers →
  validate_field header (row_get r header) (row_num + length pre)
    = Raise e →
  ∃ e', process_rows csv_headers row_num (pre ++ r :: post) res = Raise e'.
Proof.
  induction pre as [|r0 pre IH]; intros row_num res Hin Hraise.
  - simpl in *. rewrite Nat.add_0_r in Hraise. unfold Validator.row_step.
    destruct (fields_raise row_num r csv_headers header e Hin Hraise
                (count_row res)) as [e' ->].
    by eexists.
  - cbn [app Validator.process_rows].
    destruct (row_step csv_headers row_num r0 res) as [res1|e1];
      simpl; [|by eexists].
    apply IH; [done|]. simpl in Hraise.
    by rewrite Nat.add_succ_r in Hraise.
Qed.

(** A row without text in its fields passes every field check. *)
Lemma blank_fields row_num rw csv_headers :
  blank_row rw →
  ∀ res, foldM (field_step row_num rw) res csv_headers = Ok res.
Proof.
  intros Hblank. induction csv_headers as [|h hs IH]; intros res; [done|].
  simpl. assert (field_step row_num rw res h = Ok res) as ->; [|apply IH].
  unfold Validator.field_step.
  destruct (bool_decide _); [|done].
  assert (validate_field h (default (Some "") (rw !! h)) row_num = Ok None)
    as ->; [|done].
  destruct (rw !! h) as [[v|]|] eqn:Hget; simpl.
  - apply FieldFacts.empty_value_passes. by eapply Hblank.
  - done.
  - done.
Qed.


(** X1. A report of [validate_csv] never holds a warning: every finding
    of the field check has the severity error, so the warnings list is
    empty and all findings are in the errors list. *)
Theorem run_records_no_warning now csv_path csv_headers rows res :
  validate_csv now csv_path csv_headers rows = Ok res →
  warnings (data_validation res) = [] ∧
  total_warnings res = 0 ∧
  Forall (λ f, severity f = SevError) (errors (data_validation res)).
Proof.
  unfold Validator.validate_csv.
  intros (new & He & Hw & Hall & _)%process_rows_errors.
  simpl in He, Hw. unfold total_warnings. rewrite Hw, He.
  split_and!; try done.
  eapply Forall_impl; [exact Hall|]. by intros f (_ & _ & _ & ? & _).
Qed.

(** X2. Every error of a report comes from a field of a row: its row
    number is that of a row of the file (the first row is row 2), its
    column is a column of the header line that has a rule, and its value
    is the text of that field of that row, trimmed and not empty. *)
Theorem run_errors_trace_to_fields now csv_path csv_headers rows res :
  validate_csv now csv_path csv_headers rows = Ok res →
  Forall (finding_of_rows self csv_headers 2 rows)
    (errors (data_validation res)).
Proof.
  unfold Validator.validate_csv.
  intros (new & He & _ & Hall & _)%process_rows_errors.
  simpl in He. by rewrite He.
Qed.

(** X3. The errors of a report are in the order of the rows: their row
    numbers never go down along the list. *)
Theorem run_errors_in_row_order now csv_path csv_headers rows res :
  validate_csv now csv_path csv_headers rows = Ok res →
  StronglySorted le (row <$> errors (data_validation res)).
Proof.
  unfold Validator.validate_csv.
  intros (new & He & _ & _ & Hsorted)%process_rows_errors.
  simpl in He. by rewrite He.
Qed.

(** X4. The rows have no part in the head of the report: the file name
    is the name of the path, the time stamp is the clock reading, and the
    header part is the header check of the template against the header
    line, so the header is valid exactly when every header of the
    template is in the header line. *)
Theorem run_head_ignores_rows now csv_path csv_headers rows res :
  validate_csv now csv_path csv_headers rows = Ok res →
  file res = path_name csv_path ∧
  timestamp res = now ∧
  header_validation res = header_check (headers self) csv_headers ∧
  (is_valid (header_validation res) = true ↔
   ∀ h, h ∈ headers self → h ∈ csv_headers).
Proof.
  unfold Validator.validate_csv.
  intros (Hfile & Htime & Hhead)%process_rows_head. simpl in *.
  split_and!; try done. rewrite Hhead. unfold header_check. simpl.
  rewrite HeaderFacts.gset_size_zero. split.
  - intros Hempty h Hh.
    destruct (decide (h ∈ csv_headers)) as [|Hnot]; [done|].
    assert (h ∈ (list_to_set (headers self) ∖ list_to_set csv_headers
                 : gset string)) as Hin by set_solver.
    rewrite Hempty in Hin. set_solver.
  - intros Hall. apply set_eq. intros h. set_solver.
Qed.

(** X5. In a report the number of examples is the number of subject-id
    findings, up to five: [min 5] of the sum of the three counters. *)
Theorem run_examples_length now csv_path csv_headers rows res :
  validate_csv now csv_path csv_headers rows = Ok res →
  length (examples (subject_id_validation res))
  = 5 `min` subject_issues res.
Proof.
  unfold Validator.validate_csv. intros Hrun.
  apply RunFacts.process_rows_subject in Hrun; [|simpl; lia].
  simpl in Hrun. destruct Hrun as (Hex & Hu & Hn & Hi).
  unfold subject_issues. rewrite Hex, Hu, Hn, Hi.
  rewrite RunFacts.count_type_total, length_take. done.
Qed.

(** X6. A field check that raises ends the run: when some field of some
    row makes [_validate_field] raise, [validate_csv] raises and there is
    no report, whatever the other rows hold. *)
Theorem run_aborts_on_raising_field now csv_path csv_headers
    pre r post header e :
  header ∈ csv_headers →
  validate_field header (row_get r header) (2 + length pre) = Raise e →
  ∃ e', validate_csv now csv_path csv_headers (pre ++ r :: post) = Raise e'.
Proof.
  intros Hin Hraise. unfold Validator.validate_csv.
  by eapply process_rows_raise.
Qed.

(** X7. A row with no text in its fields only raises [total_rows] by
    one: no field is checked, no subject-id finding is made and nothing
    raises, under any template, well formed or not. *)
Theorem blank_row_only_counts csv_headers row_num r res :
  blank_row r →
  row_step csv_headers row_num r res = Ok (count_row res).
Proof.
  intros Hblank. unfold Validator.row_step.
  rewrite (blank_fields _ _ _ Hblank). simpl. f_equal.
  unfold subject_step.
  destruct (r !! "subject_id") as [[v|]|] eqn:Hget; [|done..].
  unfold _validate_subject_id.
  rewrite (bool_decide_eq_true_2 _ (Hblank _ _ Hget)).
  by rewrite orb_true_r.
Qed.

End WithPrimitives.
End RunMore.

(** ** More about the field check *)

Module FieldMore.
Import PyStr Validator Shapes Reports Cases StrFacts SubjectFacts StrMore.

Lemma go_time l : Re.go time_re [] l (λ _ _, true) = time_b l.
Proof.
  unfold time_b.
  do 5 (destruct l as [|? l]; [simpl; rewrite ?andb_false_r; done|]).
  unfold time_re. cbn -[Ascii.eqb is_digit Re.at_eol]. btauto.
Qed.

(** On a string that does not end in a newline, [re.match] with the
    time pattern succeeds exactly on the shape HH:MM. *)
Lemma time_re_shape s :
  (∀ l', chars s ≠ l' ++ [Re.newline]) →
  Re.matches time_re s = true ↔ time_shape s.
Proof.
  unfold Re.matches, time_shape. rewrite go_time.
  generalize (chars s) as l. clear s. intros l Hnl. unfold time_b.
  do 5 (destruct l as [|? l]; [done|]).
  destruct l as [|c l].
  - simpl Re.at_eol. rewrite !andb_true_iff.
    rewrite !Forall_cons, Forall_nil, !Ascii.eqb_eq.
    intuition (subst; auto).
  - rewrite (DateFacts.at_eol_cons c l [a; a0; a1; a2; a3]) by done.
    rewrite andb_false_r. done.
Qed.

Section WithPrimitives.
Context {number : Type}.
Variable float : string → option number.
Variable num_lt num_gt : number → number → bool.
Variable num_str : number → string.
Variable re_compile : string → option Re.regex.
Variable self : @WADEPSValidator number.

Local Abbreviation validate_field :=
  (_validate_field float num_lt num_gt num_str re_compile self).

Ltac enter_rule Hrule Hty Hne :=
  unfold _validate_field; cbn [from_option id];
  rewrite (strip_nonempty _ Hne), Hrule,
    (FieldFacts.typed_rule_not_empty _ _ Hty), Hty;
  simpl.

Lemma time_rule_outcome header rule value row_num :
  validations self !! header = Some rule →
  r_type rule = Some "time" →
  strip value ≠ "" →
  let v := strip value in
  let r := validate_field header (Some value) row_num in
  (r = Ok None ↔ time_shape v) ∧
  (¬ time_shape v →
     r = Ok (Some {| row := row_num; column := header; value := v;
                     error := "Invalid time format. Expected " +:+
                              default "HH:MM" (r_format rule);
                     severity := SevError |})).
Proof.
  intros Hrule Hty Hne. cbv zeta. enter_rule Hrule Hty Hne.
  rewrite <- (time_re_shape (strip value))
    by apply strip_no_final_newline.
  destruct (Re.matches time_re (strip value)); simpl;
    split_and!; try done.
Qed.

(** X8. Under a time rule a trimmed value that is not empty gives no
    finding exactly when it is two digits, a colon and two digits; the
    numbers are not bounded, so 25:00 passes.  Any other value gives an
    error finding that names the expected format, HH:MM unless the rule
    has a format of its own. *)
Theorem time_rule_shape header rule value row_num :
  validations self !! header = Some rule →
  r_type rule = Some "time" →
  strip value ≠ "" →
  let v := strip value in
  let r := validate_field header (Some value) row_num in
  (r = Ok None ↔ time_shape v) ∧
  (¬ time_shape v →
     r = Ok (Some {| row := row_num; column := header; value := v;
                     error := "Invalid time format. Expected " +:+
                              default "HH:MM" (r_format rule);
                     severity := SevError |})).
Proof. apply time_rule_outcome. Qed.


(** X10. White space around a value has no part in the outcome of the
    field check: a value and the same value trimmed give the same
    result, finding for finding and exception for exception. *)
Theorem field_check_ignores_padding header value row_num :
  validate_field header (Some value) row_num
  = validate_field header (Some (strip value)) row_num.
Proof.
  unfold _validate_field. cbn [from_option id]. rewrite strip_idemp.
  destruct (decide (strip value = "")) as [Hempty|Hne].
  - rewrite Hempty. by rewrite (bool_decide_eq_true_2 ("" = "")), !orb_true_r.
  - rewrite (strip_nonempty _ Hne).
    assert (falsy (Some (strip value)) = false) as Hf
      by (by apply bool_decide_eq_false).
    by rewrite Hf, (bool_decide_eq_false_2 _ Hne).
Qed.

End WithPrimitives.
End FieldMore.

(** ** Templates that can be run *)

Module TemplateFacts.
Import PyStr Validator Shapes Reports Cases StrFacts StrMore.

Section WithPrimitives.
Context {number : Type}.
Variable float : string → option number.
Variable num_lt num_gt : number → number → bool.
Variable num_str : number → string.
Variable re_compile : string → option Re.regex.
Variable path_name : string → string.
Variable self : @WADEPSValidator number.

Local Abbreviation validate_field :=
  (_validate_field float num_lt num_gt num_str re_compile self).
Local Abbreviation validate_csv :=
  (validate_csv float num_lt num_gt num_str re_compile path_name self).




End WithPrimitives.
End TemplateFacts.

(** ** More about the subject-id check *)

Module SubjectMore.
Import PyStr Validator Shapes Reports Cases StrFacts SubjectFacts StrMore.

Lemma lang_reads_only P r before w after :
  Re.lang r before w after → reads_only P r → Forall P w.
Proof.
  induction 1; simpl; intros Hr; try done.
  - constructor; [by apply Hr|done].
  - destruct Hr. apply Forall_app. split; auto.
  - destruct Hr. auto.
  - destruct Hr. auto.
  - apply Forall_app. split; auto.
Qed.

Lemma lang_ends_at_eol r before w after :
  Re.lang r before w after → ends_at_eol r → Re.at_eol after = true.
Proof.
  induction 1; simpl; intros Hr; try done.
  - auto.
  - destruct Hr. auto.
  - destruct Hr. auto.
Qed.

(** A match of a pattern that ends with [$] on a string without a final
    newline is a match of the whole string. *)
Lemma matches_whole r s :
  ends_at_eol r →
  (∀ l', chars s ≠ l' ++ [Re.newline]) →
  Re.matches r s = true →
  Re.lang r [] (chars s) [].
Proof.
  intros Hr Hnl (w & rest & Hs & Hlang)%ReFacts.matches_spec.
  pose proof (lang_ends_at_eol _ _ _ _ Hlang Hr) as Hend.
  destruct rest as [|c [|c' rest]]; simpl in Hend; [|..|done].
  - rewrite app_nil_r in Hs. by rewrite Hs.
  - apply Ascii.eqb_eq in Hend as ->. by destruct (Hnl w).
Qed.

Lemma initials_re_reads : reads_only initial_char initials_re.
Proof.
  unfold initial_char. cbn -[Ascii.eqb is_alpha]. split_and!; try done.
  all: try (intros c Hc; by left).
  all: intros c Hc%Ascii.eqb_eq; by right.
Qed.

Lemma initials_re_ends : ends_at_eol initials_re.
Proof. by simpl. Qed.

Lemma letters_have_no_space l :
  Forall (λ c, is_alpha c = true) l →
  existsb (Ascii.eqb " ") l = false.
Proof.
  induction 1 as [|c l Hc _ IH]; cbn [existsb]; [done|].
  rewrite IH, orb_false_r.
  apply not_true_iff_false. intros <-%Ascii.eqb_eq. done.
Qed.

(** X11. White space around a subject id has no part in its
    classification: the value and the value trimmed give the same
    result. *)
Theorem subject_id_ignores_padding value row_num :
  _validate_subject_id (Some value) row_num
  = _validate_subject_id (Some (strip value)) row_num.
Proof.
  unfold _validate_subject_id. cbn [from_option id]. rewrite strip_idemp.
  destruct (decide (strip value = "")) as [Hempty|Hne].
  - rewrite Hempty. by rewrite (bool_decide_eq_true_2 ("" = "")), !orb_true_r.
  - rewrite (strip_nonempty _ Hne).
    assert (falsy (Some (strip value)) = false) as Hf
      by (by apply bool_decide_eq_false).
    by rewrite Hf, (bool_decide_eq_false_2 _ Hne).
Qed.

(** X12. A subject id of one to four letters gives no finding, unless it
    is unk in some case. *)
Theorem short_letters_are_initials value row_num :
  1 ≤ len (strip value) ≤ 4 →
  Forall (λ c, is_alpha c = true) (chars (strip value)) →
  lower (strip value) ≠ "unk" →
  _validate_subject_id (Some value) row_num = None.
Proof.
  intros Hlen Hletters Hunk.
  assert (strip value ≠ "") as Hne.
  { intros Hempty. rewrite Hempty in Hlen. vm_compute in Hlen. lia. }
  destruct (SubjectClaims.subject_id_cases value row_num Hne)
    as (_ & _ & _ & Hnone & _).
  apply Hnone.
  - unfold says_unknown. intros [Hu|Hu]%elem_of_cons.
    + apply (f_equal len) in Hu. rewrite len_lower in Hu.
      vm_compute (len "unknown") in Hu. lia.
    + by apply list_elem_of_singleton in Hu.
  - intros (Hspace & _). unfold contains in Hspace.
    by rewrite letters_have_no_space in Hspace.
  - left. by apply InitialsFacts.letters_re_trimmed.
Qed.

(** X13. A subject id that gives no finding, and is not blank, is made
    of letters and dots only: a digit, a space or any other sign in it
    always gives a finding. *)
Theorem accepted_ids_are_letters_and_dots value row_num :
  strip value ≠ "" →
  _validate_subject_id (Some value) row_num = None →
  Forall initial_char (chars (strip value)).
Proof.
  intros Hne. unfold _validate_subject_id. cbn [from_option id].
  rewrite (strip_nonempty _ Hne).
  destruct (mem _ _); [done|]. destruct (_ && _); [done|].
  destruct (Re.matches initials_re (strip value)) eqn:Hm; [|done].
  intros _.
  apply (matches_whole _ _ initials_re_ends (strip_no_final_newline _)) in Hm.
  exact (lang_reads_only _ _ _ _ _ Hm initials_re_reads).
Qed.

End SubjectMore.

(** ** The consumers of the report: grouping, status, table *)

Module ReportFacts.
Import PyStr Validator Shapes Reports Cases StrFacts SubjectFacts StrMore.

(** *** The groups of [_group_errors_by_type] *)

Lemma group_get_append t k e (d : Groups) :
  group_get t (group_append k e d) =
  if bool_decide (t = k) then Some (default [] (group_get k d) ++ [e])
  else group_get t d.
Proof.
  induction d as [|[k' l] d IH]; simpl; [done|].
  destruct (decide (k = k')) as [<-|Hk].
  - rewrite (bool_decide_eq_true_2 (k = k)) by done. simpl.
    destruct (decide (t = k)) as [->|Ht].
    + by rewrite !(bool_decide_eq_true_2 (k = k)) by done.
    + by rewrite !(bool_decide_eq_false_2 (t = k)) by done.
  - rewrite (bool_decide_eq_false_2 (k = k')) by done. simpl. rewrite IH.
    destruct (decide (t = k')) as [->|Ht'].
    + rewrite (bool_decide_eq_true_2 (k' = k')) by done.
      by rewrite (bool_decide_eq_false_2 (k' = k)) by done.
    + by rewrite (bool_decide_eq_false_2 (t = k')) by done.
Qed.

Lemma group_keys_append k e (d : Groups) :
  (group_append k e d).*1 = if bool_decide (k ∈ d.*1) then d.*1
                            else d.*1 ++ [k].
Proof.
  induction d as [|[k' l] d IH]; [done|].
  cbn [group_append]. rewrite (fmap_cons fst (k', l) d). cbn [fst].
  destruct (decide (k = k')) as [<-|Hk].
  - rewrite (bool_decide_eq_true_2 (k = k)) by done.
    rewrite (bool_decide_eq_true_2 (k ∈ k :: d.*1))
      by (apply elem_of_cons; by left).
    done.
  - rewrite (bool_decide_eq_false_2 (k = k')) by done.
    rewrite fmap_cons, IH. cbn [fst].
    destruct (decide (k ∈ d.*1)) as [Hin|Hin].
    + rewrite (bool_decide_eq_true_2 (k ∈ d.*1)) by done.
      rewrite (bool_decide_eq_true_2 (k ∈ k' :: d.*1))
        by (apply elem_of_cons; by right).
      done.
    + rewrite (bool_decide_eq_false_2 (k ∈ d.*1)) by done.
      rewrite (bool_decide_eq_false_2 (k ∈ k' :: d.*1)); [done|].
      intros [?|?]%elem_of_cons; done.
Qed.

Lemma group_get_elem k l (d : Groups) :
  NoDup d.*1 → (k, l) ∈ d → group_get k d = Some l.
Proof.
  induction d as [|[k' l'] d IH]; simpl; intros Hnd Hin.
  - by apply elem_of_nil in Hin.
  - apply NoDup_cons in Hnd as [Hk' Hnd].
    apply elem_of_cons in Hin as [[= -> ->]|Hin].
    + by rewrite bool_decide_eq_true_2.
    + rewrite bool_decide_eq_false_2; [by apply IH|].
      intros ->. apply Hk'. apply list_elem_of_fmap. by exists (k', l).
Qed.

Lemma errors_of_type_snoc t errors e :
  errors_of_type t (errors ++ [e]) =
  errors_of_type t errors ++
  (if bool_decide (t = error_type (error e)) then [e] else []).
Proof.
  unfold errors_of_type. rewrite filter_app. f_equal.
  rewrite filter_cons, filter_nil.
  case_decide; case_bool_decide; done.
Qed.

Lemma group_errors_invariant errors :
  let d := _group_errors_by_type errors in
  NoDup d.*1 ∧
  ∀ t, group_get t d = match errors_of_type t errors with
                       | [] => None
                       | l => Some l
                       end.
Proof.
  induction errors as [|e errors IH] using rev_ind.
  - simpl. split; [constructor|done].
  - destruct IH as [Hnd Hget]. unfold _group_errors_by_type in *.
    rewrite fold_left_app. simpl.
    set (d := fold_left _ errors []) in *.
    set (k := error_type (error e)). split.
    + rewrite group_keys_append. case_bool_decide as Hin; [done|].
      apply NoDup_app. split_and!; [done| |apply NoDup_singleton].
      intros x Hx ->%list_elem_of_singleton. done.
    + intros t. rewrite group_get_append, errors_of_type_snoc.
      fold k. case_bool_decide as Ht.
      * subst t. rewrite Hget.
        by destruct (errors_of_type k errors).
      * rewrite Hget, app_nil_r. done.
Qed.

Lemma error_type_names msg :
  error_type msg ∈ ["Date Format Issues"; "Time Format Issues";
                    "Invalid Dropdown Values"; "Other Validation Issues"].
Proof.
  unfold error_type.
  repeat (match goal with |- context [if ?b then _ else _] =>
            destruct b end); set_solver.
Qed.

Lemma errors_of_type_length errors :
  length (errors_of_type "Date Format Issues" errors) +
  length (errors_of_type "Time Format Issues" errors) +
  length (errors_of_type "Invalid Dropdown Values" errors) +
  length (errors_of_type "Other Validation Issues" errors)
  = length errors.
Proof.
  unfold errors_of_type. induction errors as [|e errors IH]; [done|].
  rewrite !filter_cons.
  pose proof (error_type_names (error e)) as Hin.
  repeat (apply elem_of_cons in Hin as [Hin|Hin]);
    [..|by apply elem_of_nil in Hin];
    rewrite Hin; repeat case_decide; try done; simpl; lia.
Qed.

(** X14. [_group_errors_by_type] splits the errors into at most four
    groups without losing or repeating one: a key is in the dict once,
    the list under a key holds exactly the errors of that type in their
    order and is never empty, a type without errors has no key, and the
    four types together hold as many errors as came in. *)
Theorem groups_partition_errors (errors : list Finding) :
  let d := _group_errors_by_type errors in
  NoDup d.*1 ∧
  (∀ t, group_get t d = match errors_of_type t errors with
                        | [] => None
                        | l => Some l
                        end) ∧
  (∀ k l, (k, l) ∈ d →
          l = errors_of_type k errors ∧ l ≠ [] ∧
          k ∈ ["Date Format Issues"; "Time Format Issues";
               "Invalid Dropdown Values"; "Other Validation Issues"]) ∧
  length (errors_of_type "Date Format Issues" errors) +
  length (errors_of_type "Time Format Issues" errors) +
  length (errors_of_type "Invalid Dropdown Values" errors) +
  length (errors_of_type "Other Validation Issues" errors)
  = length errors.
Proof.
  cbv zeta. destruct (group_errors_invariant errors) as [Hnd Hget].
  split_and!; [done|done| |apply errors_of_type_length].
  intros k l Hin. pose proof (group_get_elem _ _ _ Hnd Hin) as Hk.
  rewrite Hget in Hk.
  destruct (errors_of_type k errors) as [|e es] eqn:Hes; [done|].
  injection Hk as <-. split_and!; [done|done|].
  assert (e ∈ errors_of_type k errors) as He
    by (rewrite Hes; apply elem_of_cons; by left).
  unfold errors_of_type in He. apply list_elem_of_filter in He as [<- _].
  apply error_type_names.
Qed.

Lemma error_type_of_messages :
  (∀ fmt,
     error_type ("Invalid date format. Expected " +:+ fmt)
     = "Date Format Issues") ∧
  (∀ fmt, str_in "date format" (lower fmt) = false →
     error_type ("Invalid time format. Expected " +:+ fmt)
     = "Time Format Issues") ∧
  error_type ("Invalid time format. Expected " +:+ "HH:MM")
  = "Time Format Issues" ∧
  error_type "Must be a number" = "Other Validation Issues".
Proof.
  split_and!.
  - intros fmt. unfold error_type, str_in. rewrite lower_app, chars_app.
    generalize (chars (lower fmt)). intros l.
    vm_compute (chars (lower _)). vm_compute (chars "date format").
    cbn. done.
  - intros fmt Hfmt. unfold error_type.
    assert (∀ p, str_in p (lower ("Invalid time format. Expected " +:+ fmt))
                 = occurs_in (chars p)
                     (chars "invalid time format. expected " ++
                      chars (lower fmt))) as Hshape.
    { intros p. unfold str_in. by rewrite lower_app, chars_app. }
    rewrite !Hshape. unfold str_in in Hfmt. revert Hfmt.
    generalize (chars (lower fmt)). intros l Hl.
    vm_compute (chars "invalid time format. expected ").
    vm_compute (chars "date format"). vm_compute (chars "time format").
    vm_compute (chars "date format") in Hl.
    cbn. rewrite Hl. done.
  - by vm_compute.
  - by vm_compute.
Qed.

Lemma classic_date s : date_shape s ∨ ¬ date_shape s.
Proof.
  destruct (Re.matches date_re s) eqn:Hm.
  - unfold date_shape. unfold Re.matches in Hm.
    rewrite DateFacts.go_date in Hm. unfold date_b in Hm.
    destruct (chars s) as [|a [|b [|c [|d [|e [|f [|g [|h [|i [|j
      [|k l]]]]]]]]]]]; try (by right; intros []).
    left. rewrite !andb_true_iff in Hm.
    rewrite DateFacts.month_b_spec, DateFacts.day_b_spec in Hm.
    rewrite !Forall_cons, Forall_nil.
    rewrite !Ascii.eqb_eq in Hm. intuition (subst; auto).
  - right. intros Hs. unfold date_shape in Hs.
    unfold Re.matches in Hm. rewrite DateFacts.go_date in Hm.
    unfold date_b in Hm.
    destruct (chars s) as [|a [|b [|c [|d [|e [|f [|g [|h [|i [|j
      [|k l]]]]]]]]]]]; try done.
    destruct Hs as (-> & -> & Hd & Hmm & Hdd).
    rewrite !Forall_cons in Hd.
    destruct Hd as (? & ? & ? & ? & ? & ? & ? & ? & _).
    assert (month_b a b = true) as Hmb
      by (apply DateFacts.month_b_spec; done).
    assert (day_b d e = true) as Hdb
      by (apply DateFacts.day_b_spec; done).
    simpl in Hm. rewrite Hmb, Hdb in Hm.
    repeat match goal with H : is_digit _ = true |- _ =>
      rewrite H in Hm; clear H end.
    simpl in Hm. done.
Qed.

Lemma classic_time s : time_shape s ∨ ¬ time_shape s.
Proof.
  unfold time_shape.
  destruct (chars s) as [|a [|b [|c [|d [|e [|f l]]]]]];
    try (by right; intros []).
  destruct (decide (c = ":"%char)) as [->|Hc];
    [|right; by intros [? _]].
  destruct (is_digit a) eqn:Ha, (is_digit b) eqn:Hb,
           (is_digit d) eqn:Hd, (is_digit e) eqn:He;
    try (right; intros [_ HF]; rewrite !Forall_cons in HF;
         destruct HF as (? & ? & ? & ? & _); congruence).
  left. split; [done|]. repeat constructor; done.
Qed.

Section WithPrimitives.
Context {number : Type}.
Variable float : string → option number.
Variable num_lt num_gt : number → number → bool.
Variable num_str : number → string.
Variable re_compile : string → option Re.regex.
Variable self : @WADEPSValidator number.

Local Abbreviation validate_field :=
  (_validate_field float num_lt num_gt num_str re_compile self).

(** X15. The findings of the field check land in the groups one
    expects: a finding of a date rule, whatever format the rule names, is
    a date format issue; a finding of a time rule that names no format of
    its own is a time format issue; the finding for a value that is no
    number is an other validation issue. *)
Theorem findings_fall_into_groups header rule value row_num f :
  validations self !! header = Some rule →
  validate_field header (Some value) row_num = Ok (Some f) →
  (r_type rule = Some "date" →
     error_type (error f) = "Date Format Issues") ∧
  (r_type rule = Some "time" → r_format rule = None →
     error_type (error f) = "Time Format Issues") ∧
  (r_type rule = Some "number" → float (strip value) = None →
     error_type (error f) = "Other Validation Issues").
Proof.
  intros Hrule Hf.
  destruct (RunMore.validate_field_finding _ _ _ _ _ _ _ _ _ _ Hf)
    as (_ & _ & _ & _ & raw & [= <-] & _ & Hne).
  destruct error_type_of_messages as (Hdate & _ & Htime & Hnum).
  split_and!.
  - intros Hty.
    destruct (FieldFacts.date_rule_outcome float num_lt num_gt num_str
                re_compile self header rule value row_num Hrule Hty Hne)
      as (_ & Hshape & Hbad).
    destruct (classic_date (strip value)) as [Hs|Hs].
    + apply Hshape in Hs. by rewrite Hs in Hf.
    + rewrite (Hbad Hs) in Hf. injection Hf as <-. apply Hdate.
  - intros Hty Hfmt.
    destruct (FieldMore.time_rule_outcome float num_lt num_gt num_str
                re_compile self header rule value row_num Hrule Hty Hne)
      as (Hshape & Hbad).
    destruct (classic_time (strip value)) as [Hs|Hs].
    + apply Hshape in Hs. by rewrite Hs in Hf.
    + rewrite (Hbad Hs) in Hf. injection Hf as <-. simpl.
      rewrite Hfmt. apply Htime.
  - intros Hty Hparse.
    destruct (FieldFacts.number_rule_outcome float num_lt num_gt num_str
                re_compile self header rule value row_num Hrule Hty Hne)
      as (Hnone & _).
    rewrite (Hnone Hparse) in Hf. injection Hf as <-. apply Hnum.
Qed.

End WithPrimitives.

End ReportFacts.

(** ** The status lines, the shortened header and the table of issues *)

Module StatusFacts.
Import PyStr Validator Shapes Reports Cases StrFacts SubjectFacts StrMore.

(** *** The table of [generate_error_report] *)

Lemma detail_add_total key example fix_text (d : Details) :
  table_total (detail_add key example fix_text d) = table_total d + 1.
Proof.
  induction d as [|[k info] d IH]; simpl; [done|].
  case_bool_decide; simpl; [lia|]. rewrite IH. lia.
Qed.

Lemma detail_add_keys key example fix_text (d : Details) :
  (detail_add key example fix_text d).*1 =
  if bool_decide (key ∈ d.*1) then d.*1 else d.*1 ++ [key].
Proof.
  induction d as [|[k info] d IH]; [done|].
  cbn [detail_add]. rewrite (fmap_cons fst (k, info) d). cbn [fst].
  destruct (decide (key = k)) as [<-|Hk].
  - rewrite (bool_decide_eq_true_2 (key = key)) by done.
    rewrite (bool_decide_eq_true_2 (key ∈ key :: d.*1))
      by (apply elem_of_cons; by left).
    done.
  - rewrite (bool_decide_eq_false_2 (key = k)) by done.
    rewrite fmap_cons, IH. cbn [fst].
    destruct (decide (key ∈ d.*1)) as [Hin|Hin].
    + rewrite (bool_decide_eq_true_2 (key ∈ d.*1)) by done.
      rewrite (bool_decide_eq_true_2 (key ∈ k :: d.*1))
        by (apply elem_of_cons; by right).
      done.
    + rewrite (bool_decide_eq_false_2 (key ∈ d.*1)) by done.
      rewrite (bool_decide_eq_false_2 (key ∈ k :: d.*1)); [done|].
      intros [?|?]%elem_of_cons; done.
Qed.

Lemma detail_add_nodup key example fix_text (d : Details) :
  NoDup d.*1 → NoDup (detail_add key example fix_text d).*1.
Proof.
  intros Hnd. rewrite detail_add_keys. case_bool_decide as Hin; [done|].
  apply NoDup_app. split_and!; [done| |apply NoDup_singleton].
  intros x Hx ->%list_elem_of_singleton. done.
Qed.

Lemma detail_add_positive key example fix_text (d : Details) :
  Forall (λ item, 1 ≤ d_count (snd item)) d →
  Forall (λ item, 1 ≤ d_count (snd item))
    (detail_add key example fix_text d).
Proof.
  induction 1 as [|[k info] d Hk Hd IH]; simpl.
  - repeat constructor.
  - case_bool_decide; constructor; simpl in *; try done; lia.
Qed.

(** What the inner loop, over the errors of one group, keeps. *)
Lemma detail_group group (l : list Finding) : ∀ d : Details,
  let d' := fold_left
              (λ d e, detail_add (fst (detail_key group e)) (value e)
                        (snd (detail_key group e)) d) l d in
  table_total d' = table_total d + length l ∧
  (NoDup d.*1 → NoDup d'.*1) ∧
  (Forall (λ item, 1 ≤ d_count (snd item)) d →
   Forall (λ item, 1 ≤ d_count (snd item)) d').
Proof.
  induction l as [|e l IH]; intros d; simpl.
  - split_and!; [lia|done|done].
  - destruct (IH (detail_add (fst (detail_key group e)) (value e)
                    (snd (detail_key group e)) d)) as (Ht & Hn & Hp).
    rewrite Ht, detail_add_total. split_and!; [lia| |].
    + intros Hd. by apply Hn, detail_add_nodup.
    + intros Hd. by apply Hp, detail_add_positive.
Qed.

Lemma detailed_total (g : Groups) : ∀ d : Details,
  let d' := fold_left
    (λ d item,
       fold_left
         (λ d e, detail_add (fst (detail_key (fst item) e)) (value e)
                   (snd (detail_key (fst item) e)) d)
         (snd item) d) g d in
  table_total d' = table_total d + sum_list (length <$> g.*2) ∧
  (NoDup d.*1 → NoDup d'.*1) ∧
  (Forall (λ item, 1 ≤ d_count (snd item)) d →
   Forall (λ item, 1 ≤ d_count (snd item)) d').
Proof.
  induction g as [|[k l] g IH]; intros d.
  - simpl. split_and!; [lia|done|done].
  - cbv zeta in *. cbn [fold_left fst snd].
    rewrite !fmap_cons. cbn [fst snd sum_list sum_list_with].
    destruct (detail_group k l d) as (Ht1 & Hn1 & Hp1).
    cbv zeta in Ht1, Hn1, Hp1.
    set (d1 := fold_left _ l d) in *.
    destruct (IH d1) as (Ht & Hn & Hp).
    rewrite Ht, Ht1. split_and!; [unfold id; lia| |]; auto.
Qed.

Lemma group_append_total k e (d : Groups) :
  sum_list (length <$> (group_append k e d).*2)
  = sum_list (length <$> d.*2) + 1.
Proof.
  unfold sum_list. induction d as [|[k' l] d IH]; [done|].
  cbn [group_append]. case_bool_decide.
  - rewrite !fmap_cons. cbn [snd sum_list_with].
    rewrite length_app. simpl. lia.
  - rewrite !fmap_cons. cbn [snd sum_list_with].
    rewrite IH. lia.
Qed.

Lemma groups_total (errors : list Finding) :
  sum_list (length <$> (_group_errors_by_type errors).*2) = length errors.
Proof.
  unfold _group_errors_by_type.
  induction errors as [|e errors IH] using rev_ind; [done|].
  rewrite fold_left_app. simpl.
  rewrite group_append_total, IH, length_app. simpl. lia.
Qed.

Lemma insert_by_count_perm x (l : Details) :
  insert_by_count x l ≡ₚ x :: l.
Proof.
  induction l as [|y l IH]; simpl; [done|].
  destruct (_ <=? _); [done|]. rewrite IH. apply Permutation_swap.
Qed.

Lemma sorted_by_count_perm (l : Details) : sorted_by_count l ≡ₚ l.
Proof.
  induction l as [|x l IH]; simpl; [done|].
  unfold sorted_by_count in *. simpl.
  by rewrite insert_by_count_perm, IH.
Qed.

Lemma insert_by_count_sorted x (l : Details) :
  StronglySorted (λ a b, d_count (snd b) ≤ d_count (snd a)) l →
  StronglySorted (λ a b, d_count (snd b) ≤ d_count (snd a))
    (insert_by_count x l).
Proof.
  induction 1 as [|y l Hl IH Hy]; simpl.
  - repeat constructor.
  - destruct (Nat.leb_spec (d_count (snd y)) (d_count (snd x))) as [Hle|Hgt].
    + constructor; [by constructor|]. constructor; [done|].
      eapply Forall_impl; [exact Hy|]. simpl. intros z Hz. lia.
    + constructor; [done|].
      rewrite insert_by_count_perm. constructor; [lia|done].
Qed.

Lemma sorted_by_count_sorted (l : Details) :
  StronglySorted (λ a b, d_count (snd b) ≤ d_count (snd a))
    (sorted_by_count l).
Proof.
  induction l as [|x l IH]; [constructor|].
  by apply insert_by_count_sorted.
Qed.

Lemma table_total_perm (l1 l2 : Details) :
  l1 ≡ₚ l2 → table_total l1 = table_total l2.
Proof.
  induction 1 as [|x l1 l2 _ IH|x y l|l1 l2 l3 _ IH1 _ IH2]; simpl;
    [done|by rewrite IH|lia|congruence].
Qed.

(** X16. The table of issues of the error report accounts for every
    error once: its counts add up to the number of errors of the report,
    no key comes twice, every entry counts at least one error, and the
    entries come with the larger counts first. *)
Theorem error_report_table_counts (results : Results) :
  let t := error_report_table results in
  table_total t = total_errors results ∧
  NoDup t.*1 ∧
  Forall (λ item, 1 ≤ d_count (snd item)) t ∧
  StronglySorted (λ a b, d_count (snd b) ≤ d_count (snd a)) t.
Proof.
  cbv zeta. unfold error_report_table, detailed_error_types.
  destruct (detailed_total
              (_group_errors_by_type (errors (data_validation results))) [])
    as (Ht & Hn & Hp). simpl in Ht, Hn, Hp.
  split_and!.
  - rewrite (table_total_perm _ _ (sorted_by_count_perm _)), Ht.
    by rewrite groups_total.
  - rewrite (sorted_by_count_perm _). apply Hn. constructor.
  - rewrite (sorted_by_count_perm _). apply Hp. constructor.
  - apply sorted_by_count_sorted.
Qed.

(** *** The shortened header *)

(** X17. A header as the dashboard lists it is never longer than 60
    characters: a header of up to 60 characters is listed as it is, a
    longer one as its first 57 characters and three dots. *)
Theorem display_header_bound (header : string) :
  len (display_header header) ≤ 60 ∧
  (len header ≤ 60 → display_header header = header) ∧
  (60 < len header →
     len (display_header header) = 60 ∧
     chars (display_header header)
     = take 57 (chars header) ++ chars "...").
Proof.
  unfold display_header.
  destruct (Nat.leb_spec (len header) 60) as [Hle|Hgt].
  - split_and!; [done|done|lia].
  - assert (chars (str (take 57 (chars header)) +:+ "...")
            = take 57 (chars header) ++ chars "...") as Hc
      by (by rewrite chars_app, chars_str).
    assert (len (str (take 57 (chars header)) +:+ "...") = 60) as Hl.
    { unfold len in *. rewrite Hc, length_app, length_take.
      change (length (chars "...")) with 3. lia. }
    split_and!; [lia|lia|done].
Qed.

(** *** The two verdicts *)

(** X18. [process_auto_mode] counts a file as passed exactly when its
    dashboard does not say failed, so a file with subject-id findings
    only counts as passed; the passed and failed counts add up to the
    number of files. *)
Theorem auto_mode_counts (all_results : list Results) :
  (∀ r, counts_as_passed r = true ↔ dashboard_status r ≠ "failed") ∧
  total_passed all_results ≤ length all_results ∧
  total_passed all_results + total_failed all_results
  = length all_results.
Proof.
  assert (total_passed all_results ≤ length all_results) as Hle
    by apply length_filter.
  split_and!; [|done|unfold total_failed; lia].
  intros r. unfold counts_as_passed, dashboard_status, total_errors.
  destruct (is_valid (header_validation r)); simpl; [|by split].
  destruct (length (errors (data_validation r))) as [|n]; simpl.
  - split; [|done]. intros _. by destruct (_ || _).
  - by split.
Qed.

End StatusFacts.

(** ** The verdicts on a report of the run *)

Module VerdictFacts.
Import PyStr Validator Shapes Reports Cases StrFacts SubjectFacts StrMore.

Section WithPrimitives.
Context {number : Type}.
Variable float : string → option number.
Variable num_lt num_gt : number → number → bool.
Variable num_str : number → string.
Variable re_compile : string → option Re.regex.
Variable path_name : string → string.
Variable self : @WADEPSValidator number.

Local Abbreviation validate_csv :=
  (validate_csv float num_lt num_gt num_str re_compile path_name self).

(** X19. On a report of [validate_csv] the dashboard and the console
    summary agree on a clean file and differ on a few errors: the
    dashboard says passed exactly when the summary prints PASSED, and
    then and only then shows the file as ready; a summary that prints
    FAILED has a dashboard that says failed; but with a valid header and
    one to ten errors the dashboard says failed while the summary prints
    PASSED WITH WARNINGS. *)
Theorem verdicts_of_a_report now csv_path csv_headers rows res :
  validate_csv now csv_path csv_headers rows = Ok res →
  (dashboard_status res = "passed" ↔
   summary_status res = "    PASSED - File meets all requirements") ∧
  (dashboard_ready res = true ↔ dashboard_status res = "passed") ∧
  (summary_status res = "    FAILED - Critical issues found" →
   dashboard_status res = "failed") ∧
  (dashboard_status res = "failed" ∧
   summary_status res = "    PASSED WITH WARNINGS" ↔
   is_valid (header_validation res) = true ∧ 1 ≤ total_errors res ≤ 10).
Proof.
  unfold Validator.validate_csv. intros Hrun.
  pose proof (RunMore.process_rows_errors _ _ _ _ _ _ _ _ _ _ _ Hrun)
    as (new & _ & Hw & _).
  pose proof (RunMore.process_rows_head _ _ _ _ _ _ _ _ _ _ _ Hrun)
    as (_ & _ & Hhead).
  simpl in Hw, Hhead.
  unfold dashboard_status, dashboard_ready, summary_status, total_errors,
    total_warnings.
  rewrite Hw, Hhead. unfold header_check. cbn [is_valid missing length].
  generalize (size (list_to_set (headers self) ∖ list_to_set csv_headers
                    : gset string)).
  generalize (length (errors (data_validation res))).
  generalize (subject_issues res). intros s e m.
  destruct m as [|m], e as [|e], s as [|s]; simpl.
  all: repeat match goal with |- context [?a <? ?b] =>
         destruct (Nat.ltb_spec a b) end.
  all: repeat split; intros;
       repeat match goal with H : _ ∧ _ |- _ => destruct H end;
       try done; try lia.
Qed.

End WithPrimitives.
End VerdictFacts.

(** ** The further properties at the sample data *)

Module Coverage.
Import PyStr Validator Shapes Reports Cases StrFacts SubjectFacts StrMore.

Lemma faulty_run_returns : ∃ res, faulty_run = Ok res.
Proof. eexists. vm_compute. reflexivity. Qed.

Lemma run_records_no_warning_witness :
  ∃ res, faulty_run = Ok res ∧
         warnings (data_validation res) = [] ∧
         length (errors (data_validation res)) = 3.
Proof.
  destruct faulty_run as [res|e] eqn:Hrun;
    [|vm_compute in Hrun; discriminate Hrun].
  exists res. split; [done|]. split.
  - exact (proj1 (RunMore.run_records_no_warning Sample.float
             Sample.num_lt Sample.num_gt Sample.num_str Sample.re_compile
             Sample.path_name Sample.template _ _ _ _ _ Hrun)).
  - vm_compute in Hrun. by injection Hrun as <-.
Defined.

Lemma run_errors_trace_to_fields_witness :
  ∃ res, faulty_run = Ok res ∧
         Forall (finding_of_rows Sample.template sample_headers 2
                   faulty_rows)
           (errors (data_validation res)).
Proof.
  destruct faulty_run as [res|e] eqn:Hrun;
    [|vm_compute in Hrun; discriminate Hrun].
  exists res. split; [done|].
  exact (RunMore.run_errors_trace_to_fields Sample.float
           Sample.num_lt Sample.num_gt Sample.num_str Sample.re_compile
           Sample.path_name Sample.template _ _ _ _ _ Hrun).
Defined.

Lemma run_errors_in_row_order_witness :
  ∃ res, faulty_run = Ok res ∧
         StronglySorted le (row <$> errors (data_validation res)).
Proof.
  destruct faulty_run as [res|e] eqn:Hrun;
    [|vm_compute in Hrun; discriminate Hrun].
  exists res. split; [done|].
  exact (RunMore.run_errors_in_row_order Sample.float
           Sample.num_lt Sample.num_gt Sample.num_str Sample.re_compile
           Sample.path_name Sample.template _ _ _ _ _ Hrun).
Defined.

Lemma run_head_ignores_rows_witness :
  ∃ res, faulty_run = Ok res ∧
         file res = "in.csv" ∧
         timestamp res = "2024-05-01T09:00:00" ∧
         header_validation res
         = header_check ["subject_id"; "event_date"] sample_headers.
Proof.
  destruct faulty_run as [res|e] eqn:Hrun;
    [|vm_compute in Hrun; discriminate Hrun].
  exists res. split; [done|].
  destruct (RunMore.run_head_ignores_rows Sample.float
              Sample.num_lt Sample.num_gt Sample.num_str Sample.re_compile
              Sample.path_name Sample.template _ _ _ _ _ Hrun)
    as (Hf & Ht & Hh & _).
  split_and!; [|done|done]. rewrite Hf. by vm_compute.
Defined.

Lemma run_examples_length_witness :
  ∃ res, eight_run = Ok res ∧
         length (examples (subject_id_validation res)) = 5 ∧
         subject_issues res = 7.
Proof.
  destruct eight_run as [res|e] eqn:Hrun;
    [|vm_compute in Hrun; discriminate Hrun].
  exists res. split; [done|].
  pose proof (RunMore.run_examples_length Sample.float
                Sample.num_lt Sample.num_gt Sample.num_str Sample.re_compile
                Sample.path_name Sample.template _ _ _ _ _ Hrun) as Hlen.
  assert (subject_issues res = 7) as Hs
    by (vm_compute in Hrun; by injection Hrun as <-).
  split; [|done]. rewrite Hlen, Hs. reflexivity.
Defined.

Lemma run_aborts_on_raising_field_witness : ∃ e', broken_run = Raise e'.
Proof.
  apply (RunMore.run_aborts_on_raising_field Sample.float
           Sample.num_lt Sample.num_gt Sample.num_str Sample.re_compile
           Sample.path_name broken_template "2024-05-01T09:00:00" "in.csv"
           ["armed"] []
           (armed_row "Yes") [armed_row "No"] "armed" (KeyError "values")).
  - apply elem_of_cons. by left.
  - by vm_compute.
Defined.

Lemma blank_sample_is_blank : blank_row blank_sample.
Proof.
  intros header value. unfold blank_sample.
  intros [_ [= <-]]%lookup_singleton_Some. by vm_compute.
Qed.

Lemma blank_row_only_counts_witness :
  row_step Sample.float Sample.num_lt Sample.num_gt Sample.num_str
    Sample.re_compile broken_template ["armed"; "subject_id"] 2
    blank_sample fresh_results
  = Ok (count_row fresh_results).
Proof.
  apply RunMore.blank_row_only_counts. apply blank_sample_is_blank.
Defined.

Lemma time_rule_shape_witness :
  Sample.validate_field "event_time" (Some "25:00") 2 = Ok None.
Proof.
  assert (strip "25:00" ≠ "") as Hne by (by vm_compute).
  destruct (FieldMore.time_rule_shape Sample.float Sample.num_lt
              Sample.num_gt Sample.num_str Sample.re_compile
              Sample.template "event_time" (Sample.rule "time") "25:00" 2
              ltac:(by vm_compute) eq_refl Hne) as (H & _).
  apply H. unfold time_shape, chars. cbn.
  split; [done|]. repeat constructor.
Defined.




(** A rule whose only keys are unread ones is not empty: the field check
    looks for its type and raises. *)
Example unread_rule_raises :
  rule_is_empty unread_rule = false ∧
  _validate_field Sample.float Sample.num_lt Sample.num_gt Sample.num_str
    Sample.re_compile unread_template "armed" (Some "Yes") 2
  = Raise (KeyError "type").
Proof. split; by vm_compute. Qed.

Lemma short_letters_are_initials_witness :
  _validate_subject_id (Some " JD ") 3 = None.
Proof.
  apply SubjectMore.short_letters_are_initials.
  - vm_compute. lia.
  - vm_compute (chars _). repeat constructor.
  - by vm_compute.
Defined.

Lemma accepted_ids_are_letters_and_dots_witness :
  Forall initial_char (chars (strip " J.D. ")).
Proof.
  apply (SubjectMore.accepted_ids_are_letters_and_dots " J.D. " 4).
  - by vm_compute.
  - by vm_compute.
Defined.

Lemma findings_fall_into_groups_witness :
  error_type "Invalid date format. Expected MM/DD/YYYY"
  = "Date Format Issues".
Proof.
  destruct (ReportFacts.findings_fall_into_groups Sample.float
              Sample.num_lt Sample.num_gt Sample.num_str Sample.re_compile
              Sample.template "event_date" (Sample.rule "date")
              "13/45/2024" 2
              {| row := 2; column := "event_date"; value := "13/45/2024";
                 error := "Invalid date format. Expected MM/DD/YYYY";
                 severity := SevError |}
              ltac:(by vm_compute) ltac:(by vm_compute)) as (H & _).
  by apply H.
Defined.

Lemma verdicts_of_a_report_witness :
  ∃ res, faulty_run = Ok res ∧
         dashboard_status res = "failed" ∧
         summary_status res = "    PASSED WITH WARNINGS".
Proof.
  destruct faulty_run as [res|e] eqn:Hrun;
    [|vm_compute in Hrun; discriminate Hrun].
  exists res. split; [done|].
  destruct (VerdictFacts.verdicts_of_a_report Sample.float
              Sample.num_lt Sample.num_gt Sample.num_str Sample.re_compile
              Sample.path_name Sample.template _ _ _ _ _ Hrun)
    as (_ & _ & _ & H).
  apply H. vm_compute in Hrun. injection Hrun as <-.
  split; [by vm_compute|]. vm_compute. lia.
Defined.

(** The groups and the table of the faulty run. *)
Example faulty_run_groups :
  ∃ res, faulty_run = Ok res ∧
         (_group_errors_by_type (errors (data_validation res))).*1
         = ["Date Format Issues"; "Time Format Issues";
            "Invalid Dropdown Values"] ∧
         (λ item, (fst item, d_count (snd item))) <$> error_report_table res
         = [("event_date: Date format issue", 1);
            ("event_time: Time format issue", 1);
            ("sex: Invalid dropdown value", 1)] ∧
         print_summary res
         = [newline +:+ "  Summary for in.csv:";
            "    3 data errors found";
            "    PASSED WITH WARNINGS"].
Proof.
  eexists. split; [vm_compute; reflexivity|]. split_and!; by vm_compute.
Qed.

End Coverage.
